(** * togeeat-be: the matching subsystem

    A shallow embedding of [src/matching/matching.repository.ts] and
    [src/matching/matching.controller.ts].

    The database behind Prisma is an explicit value of type [Db]; every
    asynchronous method becomes a function in the request monad [M], which
    threads the database and may end in a thrown exception.  The clock
    ([new Date()]) is an explicit argument [now], in milliseconds. *)

From Stdlib Require Import String ZArith List Bool Lia Permutation.
Import ListNotations.
Local Open Scope Z_scope.

(** ** JavaScript numbers as the controller sees them *)

(** The result of the unary plus applied to a route or query parameter.
    [JFrac k] is a finite number with a fractional part, given with the
    integer [k] that an [Int] column receives for it (for 8.5 that is 8);
    [JInfinity] is either infinity.  Both are truthy. *)
Inductive jsnumber : Type :=
| JNaN
| JInt (z : Z)
| JFrac (stored : Z)
| JInfinity.

(** [!!n] for a number: [NaN] and zero are falsy. *)
Definition truthy (n : jsnumber) : bool :=
  match n with
  | JNaN => false
  | JInt z => negb (z =? 0)
  | JFrac _ => true
  | JInfinity => true
  end.

(** The integer that reaches the database for a number, if there is one. *)
Definition as_int (n : jsnumber) : option Z :=
  match n with
  | JInt z => Some z
  | JFrac k => Some k
  | JNaN => None
  | JInfinity => None
  end.

(** The values of an [Int] column: 32-bit signed integers. *)
Definition int32 (z : Z) : bool :=
  (-2147483648 <=? z) && (z <=? 2147483647).
Arguments int32 : simpl never.

(** [!d] for an optional numeric field of a DTO: [undefined] and [0]. *)
Definition falsy_field (d : option Z) : bool :=
  match d with
  | None => true
  | Some z => z =? 0
  end.

(** ** Exceptions and the request monad *)

Inductive PrismaError : Type :=
| ValidationFailed        (* an argument of the wrong type *)
| ValueOutOfRange         (* P2020 *)
| UniqueConstraintFailed  (* P2002 *)
| ForeignKeyFailed        (* P2003 *)
| RecordNotFound.         (* P2025 *)

Inductive Exception : Type :=
| BadRequestException (message : string)
| NotFoundException (message : option string)
| ForbiddenException (message : string)
| PrismaException (e : PrismaError).

Inductive Result (A : Type) : Type :=
| Ok (a : A)
| Throw (e : Exception).
Arguments Ok {A} a.
Arguments Throw {A} e.

Definition is_ok {A} (r : Result A) : bool :=
  match r with
  | Ok _ => true
  | Throw _ => false
  end.

(** ** The data model *)

Inductive MatchingStatus : Type := OPEN | CLOSED.
Inductive MatchingType : Type := QUICK | YOTEI.

Definition MatchingStatus_eqb (a b : MatchingStatus) : bool :=
  match a, b with
  | OPEN, OPEN | CLOSED, CLOSED => true
  | _, _ => false
  end.

Definition MatchingType_eqb (a b : MatchingType) : bool :=
  match a, b with
  | QUICK, QUICK | YOTEI, YOTEI => true
  | _, _ => false
  end.

(** Modelled from the spec: the Prisma schema and
    [entities/matching.entity.ts] are not part of the sources; the columns
    are those of the spec's data model, and the source uses each of [id],
    [ownerId], [matchingDate], [status] and [userMatchings] by name.
    Purely descriptive columns are left out. *)
Module MatchingEntity.
Record t : Type := mk {
  id : Z;
  ownerId : Z;
  matchingType : MatchingType;
  matchingDate : option Z;
  duration : option Z;
  status : MatchingStatus;
  createdAt : Z
}.

Definition set_status (s : MatchingStatus) (m : t) : t :=
  mk (id m) (ownerId m) (matchingType m) (matchingDate m) (duration m) s
     (createdAt m).
End MatchingEntity.

(** A row of the join table, keyed by the compound [userId_matchingId]. *)
Module UserMatching.
Record t : Type := mk {
  userId : Z;
  matchingId : Z
}.

Definition has_key (mid uid : Z) (r : t) : bool :=
  (matchingId r =? mid) && (userId r =? uid).
End UserMatching.

(** What [findFirst] with [include: { userMatchings: true }] returns. *)
Module MatchingWithMembers.
Record t : Type := mk {
  matching : MatchingEntity.t;
  userMatchings : list UserMatching.t
}.
End MatchingWithMembers.

(** Modelled from the spec: [dto/create-matching.dto.ts] is not part of the
    sources; the three fields are the ones the controller destructures. *)
Module CreateMatchingDto.
Record t : Type := mk {
  matchingType : MatchingType;
  duration : option Z;
  matchingDate : option Z
}.
End CreateMatchingDto.

(** Modelled from the spec: the sort specification of the query builder,
    "field + direction".  [None] is the empty [orderBy] object. *)
Inductive SortField : Type :=
| ById | ByOwnerId | ByMatchingDate | ByDuration | ByCreatedAt.
Inductive SortOrder : Type := Asc | Desc.
Definition SortParam : Type := option (SortField * SortOrder).

(** Modelled from the spec: [common/pipes/search-query.pipe.ts] is not part
    of the sources.  [limit] and [offset] are the two fields the repository
    destructures, natural numbers after the pipe; the filters are the query
    parameters the controller declares. *)
Module SearchQueryDto.
Record t : Type := mk {
  limit : nat;
  offset : nat;
  status : option MatchingStatus;
  ownerName : option string;
  matchBefore : option Z;
  matchAfter : option Z;
  createdBefore : option Z;
  createdAfter : option Z;
  sort : SortParam
}.
End SearchQueryDto.

(** Modelled from the spec: [common/dto/pagination.dto.ts] is not part of
    the sources; the constructor stores its two arguments. *)
Module PaginationDto.
Record t : Type := mk {
  total : nat;
  items : list MatchingEntity.t
}.
End PaginationDto.

(** ** The database *)

Record Db : Type := mkDb {
  matchings : list MatchingEntity.t;
  userMatchings : list UserMatching.t;
  nextId : Z   (* the autoincrement sequence of [Matching.id] *)
}.

(** A request runs against the database and either returns or throws; what
    it wrote before throwing stays written. *)
Definition M (A : Type) : Type := Db -> Result A * Db.

Definition ret {A} (a : A) : M A := fun db => (Ok a, db).

Definition throw {A} (e : Exception) : M A := fun db => (Throw e, db).

Definition bind {A B} (c : M A) (k : A -> M B) : M B :=
  fun db =>
    match c db with
    | (Ok a, db') => k a db'
    | (Throw e, db') => (Throw e, db')
    end.

Notation "x <- c ;; k" := (bind c (fun x => k))
  (at level 61, c at next level, right associativity).
Notation "c ;;; k" := (bind c (fun _ => k))
  (at level 61, right associativity).

(** A call whose promise is dropped (no [await]): its writes reach the
    database, its outcome, a rejection included, does not reach the caller. *)
Definition not_awaited {A} (c : M A) : M unit :=
  fun db => (Ok tt, snd (c db)).

(** ** Ordering rows *)

Definition sort_key (f : SortField) (m : MatchingEntity.t) : option Z :=
  match f with
  | ById => Some (MatchingEntity.id m)
  | ByOwnerId => Some (MatchingEntity.ownerId m)
  | ByMatchingDate => MatchingEntity.matchingDate m
  | ByDuration => MatchingEntity.duration m
  | ByCreatedAt => Some (MatchingEntity.createdAt m)
  end.

(** Ascending order with nulls last, as PostgreSQL sorts. *)
Definition key_leb (a b : option Z) : bool :=
  match a, b with
  | _, None => true
  | None, Some _ => false
  | Some x, Some y => x <=? y
  end.

Definition row_leb (p : SortField * SortOrder) (a b : MatchingEntity.t) : bool :=
  match snd p with
  | Asc => key_leb (sort_key (fst p) a) (sort_key (fst p) b)
  | Desc => key_leb (sort_key (fst p) b) (sort_key (fst p) a)
  end.

Fixpoint insert_by {A} (leb : A -> A -> bool) (x : A) (l : list A) : list A :=
  match l with
  | [] => [x]
  | y :: l' => if leb x y then x :: l else y :: insert_by leb x l'
  end.

Fixpoint sort_by {A} (leb : A -> A -> bool) (l : list A) : list A :=
  match l with
  | [] => []
  | x :: l' => insert_by leb x (sort_by leb l')
  end.

Definition orderBy (p : SortParam) (l : list MatchingEntity.t)
  : list MatchingEntity.t :=
  match p with
  | None => l
  | Some fo => sort_by (row_leb fo) l
  end.

(** ** The Prisma queries the repository issues *)

Module Prisma.

(** An [Int] argument: the integer the database receives for the number
    must fit the 32-bit column, or the query fails as out of range; a
    number with no such integer is refused. *)
Definition int_arg (n : jsnumber) : M Z :=
  match as_int n with
  | Some z =>
      if int32 z then ret z else throw (PrismaException ValueOutOfRange)
  | None => throw (PrismaException ValidationFailed)
  end.

(** An optional [Int] field of the data of an insert. *)
Definition int_field (d : option Z) : M unit :=
  match d with
  | Some z =>
      if int32 z then ret tt else throw (PrismaException ValueOutOfRange)
  | None => ret tt
  end.

(** [{ lte: now }] on a nullable column: a null never matches. *)
Definition lte (column : option Z) (now : Z) : bool :=
  match column with
  | Some t => t <=? now
  | None => false
  end.

Definition count (where_ : MatchingEntity.t -> bool) : M nat :=
  fun db => (Ok (length (filter where_ (matchings db))), db).

Definition findMany (where_ : MatchingEntity.t -> bool) (order : SortParam)
           (skip take : nat) : M (list MatchingEntity.t) :=
  fun db =>
    (Ok (firstn take (skipn skip (orderBy order (filter where_ (matchings db))))),
     db).

Definition updateMany (where_ : MatchingEntity.t -> bool)
           (data : MatchingEntity.t -> MatchingEntity.t) : M unit :=
  fun db =>
    (Ok tt,
     mkDb (map (fun m => if where_ m then data m else m) (matchings db))
          (userMatchings db) (nextId db)).

End Prisma.

(** ** matching.repository.ts *)

Module MatchingRepository.

(** [create]: a [duration] that does not fit its [Int] column fails the
    insert as out of range.  Otherwise the row gets the next id of the
    sequence, which is taken not to have run out; [status] and [createdAt]
    take the defaults the spec gives them, [OPEN] and the current time;
    [ownerId] is the id of the authenticated account. *)
Definition create (now : Z) (ownerId : Z) (data : CreateMatchingDto.t)
  : M MatchingEntity.t :=
  Prisma.int_field (CreateMatchingDto.duration data) ;;;
  fun db =>
    let row :=
      MatchingEntity.mk (nextId db) ownerId
        (CreateMatchingDto.matchingType data)
        (CreateMatchingDto.matchingDate data)
        (CreateMatchingDto.duration data)
        OPEN now in
    (Ok row, mkDb (matchings db ++ [row]) (userMatchings db) (nextId db + 1)).

(** The [where] clause of [listActive], used by both queries of its
    transaction. *)
Definition where_open (m : MatchingEntity.t) : bool :=
  MatchingStatus_eqb (MatchingEntity.status m) OPEN.

Definition listActive (q : SearchQueryDto.t) (sortParam : SortParam)
  : M PaginationDto.t :=
  res0 <- Prisma.count where_open ;;
  res1 <- Prisma.findMany where_open sortParam
            (SearchQueryDto.offset q) (SearchQueryDto.limit q) ;;
  ret (PaginationDto.mk res0 res1).

Definition where_owner (id : Z) (m : MatchingEntity.t) : bool :=
  MatchingEntity.ownerId m =? id.

Definition getMatchingOfUser (id : Z) (q : SearchQueryDto.t)
  : M PaginationDto.t :=
  res0 <- Prisma.count (where_owner id) ;;
  res1 <- Prisma.findMany (where_owner id) None
            (SearchQueryDto.offset q) (SearchQueryDto.limit q) ;;
  ret (PaginationDto.mk res0 res1).

Definition members_of (mid : Z) (db : Db) : list UserMatching.t :=
  filter (fun r => UserMatching.matchingId r =? mid) (userMatchings db).

Definition findOne (id : jsnumber) : M (option MatchingWithMembers.t) :=
  z <- Prisma.int_arg id ;;
  fun db =>
    (Ok (match find (fun m => MatchingEntity.id m =? z) (matchings db) with
         | Some m => Some (MatchingWithMembers.mk m (members_of z db))
         | None => None
         end),
     db).

(** [userMatching.create]: the compound key admits a pair once, and the
    row must reference a matching that exists. *)
Definition addUserToMatching (matchingId userId : jsnumber) : M unit :=
  uid <- Prisma.int_arg userId ;;
  mid <- Prisma.int_arg matchingId ;;
  fun db =>
    if existsb (UserMatching.has_key mid uid) (userMatchings db) then
      (Throw (PrismaException UniqueConstraintFailed), db)
    else if existsb (fun m => MatchingEntity.id m =? mid) (matchings db) then
      (Ok tt,
       mkDb (matchings db)
            (userMatchings db ++ [UserMatching.mk uid mid]) (nextId db))
    else (Throw (PrismaException ForeignKeyFailed), db).

(** [userMatching.delete] by the compound key: fails when there is no such
    row. *)
Definition removeUserFromMatching (matchingId userId : jsnumber) : M unit :=
  mid <- Prisma.int_arg matchingId ;;
  uid <- Prisma.int_arg userId ;;
  fun db =>
    if existsb (UserMatching.has_key mid uid) (userMatchings db) then
      (Ok tt,
       mkDb (matchings db)
            (filter (fun r => negb (UserMatching.has_key mid uid r))
                    (userMatchings db))
            (nextId db))
    else (Throw (PrismaException RecordNotFound), db).

(** The [where] clause of [updateStatus]. *)
Definition where_expired (now : Z) (m : MatchingEntity.t) : bool :=
  Prisma.lte (MatchingEntity.matchingDate m) now
  && MatchingStatus_eqb (MatchingEntity.status m) OPEN.

Definition updateStatus (now : Z) : M unit :=
  Prisma.updateMany (where_expired now) (MatchingEntity.set_status CLOSED).

(** [matching.delete]: fails when there is no such row; the membership rows
    of the matching go with it, as the spec says of deletion. *)
Definition delete (id : jsnumber) : M unit :=
  z <- Prisma.int_arg id ;;
  fun db =>
    if existsb (fun m => MatchingEntity.id m =? z) (matchings db) then
      (Ok tt,
       mkDb (filter (fun m => negb (MatchingEntity.id m =? z)) (matchings db))
            (filter (fun r => negb (UserMatching.matchingId r =? z))
                    (userMatchings db))
            (nextId db))
    else (Throw (PrismaException RecordNotFound), db).

End MatchingRepository.

(** ** matching.service.ts *)

(** Modelled from the spec: [matching.service.ts] is not part of the
    sources.  Each method is the spec's operation.  [list] selects by the
    status the query names, OPEN when it names none, together with the
    other filters of the query, and pages and counts like the repository's
    listings; the spec leaves the convention of the date bounds open and
    the owner's name lives in the user directory, so those filters are a
    parameter.  [joinUser] fails with a not-found error when the matching
    does not exist and otherwise creates the membership row (the spec notes
    that a duplicate join is not guarded).  The other methods pass their
    arguments on to the repository. *)
Module MatchingService.

Definition create (now : Z) (ownerId : Z) (data : CreateMatchingDto.t)
  : M MatchingEntity.t :=
  MatchingRepository.create now ownerId data.

Section Listing.

Variable otherFilters : SearchQueryDto.t -> MatchingEntity.t -> bool.

Definition requested_status (q : SearchQueryDto.t) : MatchingStatus :=
  match SearchQueryDto.status q with
  | Some s => s
  | None => OPEN
  end.

Definition where_query (q : SearchQueryDto.t) (m : MatchingEntity.t) : bool :=
  MatchingStatus_eqb (MatchingEntity.status m) (requested_status q)
  && otherFilters q m.

Definition list (q : SearchQueryDto.t) : M PaginationDto.t :=
  res0 <- Prisma.count (where_query q) ;;
  res1 <- Prisma.findMany (where_query q) (SearchQueryDto.sort q)
            (SearchQueryDto.offset q) (SearchQueryDto.limit q) ;;
  ret (PaginationDto.mk res0 res1).

End Listing.

Definition getMatchingsOfUser (id : Z) (q : SearchQueryDto.t)
  : M PaginationDto.t :=
  MatchingRepository.getMatchingOfUser id q.

Definition findOne (id : jsnumber) : M (option MatchingWithMembers.t) :=
  MatchingRepository.findOne id.

Definition joinUser (matchingId userId : jsnumber) : M unit :=
  matching <- MatchingRepository.findOne matchingId ;;
  match matching with
  | None => throw (NotFoundException None)
  | Some _ => MatchingRepository.addUserToMatching matchingId userId
  end.

Definition removeUser (matchingId userId : jsnumber) : M unit :=
  MatchingRepository.removeUserFromMatching matchingId userId.

Definition remove (id : jsnumber) : M unit :=
  MatchingRepository.delete id.

End MatchingService.

(** ** matching.controller.ts *)

Module MatchingController.

(** [undefined < 0] is false; otherwise the numbers are compared. *)
Definition field_ltb (d : option Z) (bound : Z) : bool :=
  match d with
  | Some z => z <? bound
  | None => false
  end.

(** [!matchingDate]: a [Date] object is truthy, [undefined] is not. *)
Definition falsy_date (d : option Z) : bool :=
  match d with
  | Some _ => false
  | None => true
  end.

Definition create (now : Z) (currentUserId : Z) (createMatchingDto : CreateMatchingDto.t)
  : M MatchingEntity.t :=
  let matchingDate := CreateMatchingDto.matchingDate createMatchingDto in
  let duration := CreateMatchingDto.duration createMatchingDto in
  let matchingType := CreateMatchingDto.matchingType createMatchingDto in
  if (MatchingType_eqb matchingType QUICK && falsy_field duration)
     || (MatchingType_eqb matchingType YOTEI && falsy_date matchingDate)
  then throw (BadRequestException "Missing duration or matching date")
  else if negb (falsy_field duration) && field_ltb duration 0
  then throw (BadRequestException "Invalid duration")
  else if negb (falsy_date matchingDate) && field_ltb matchingDate now
  then throw (BadRequestException "Invalid matching date")
  else MatchingService.create now currentUserId createMatchingDto.

Definition list (otherFilters : SearchQueryDto.t -> MatchingEntity.t -> bool)
           (query : SearchQueryDto.t) : M PaginationDto.t :=
  MatchingService.list otherFilters query.

Definition getMyMatchings (currentUserId : Z) (query : SearchQueryDto.t)
  : M PaginationDto.t :=
  MatchingService.getMatchingsOfUser currentUserId query.

Section Members.

(** [MatchingService.searchMatchingMembersByName] is not part of the
    sources; the route is written over any search, whatever it returns. *)
Variable MemberList : Type.
Variable searchService : Z -> string -> M MemberList.

(** [!memberName] holds for a missing parameter and for the empty string. *)
Definition searchMatchingMembersByName (currentUserId : Z)
           (memberName : option string) : M MemberList :=
  match memberName with
  | None => throw (BadRequestException "Missing member name")
  | Some EmptyString => throw (BadRequestException "Missing member name")
  | Some name => searchService currentUserId name
  end.

End Members.

Section Routes.

(** The conversion of a string to a number that the unary plus performs
    (ECMAScript's StringToNumber); the routes are written over any such
    conversion. *)
Variable ToNumber : string -> jsnumber.

(** [+userId] for a query parameter that may be missing: [+undefined]
    is [NaN]. *)
Definition plus_param (p : option string) : jsnumber :=
  match p with
  | Some s => ToNumber s
  | None => JNaN
  end.

Definition findOne (id : string) : M MatchingWithMembers.t :=
  matching <- MatchingService.findOne (ToNumber id) ;;
  match matching with
  | None =>
      throw (NotFoundException
               (Some ("matching with id=" ++ id ++ " not found")%string))
  | Some m => ret m
  end.

Definition joinMatching (currentUserId : Z) (id : string) : M unit :=
  MatchingService.joinUser (ToNumber id) (JInt currentUserId).

Definition leaveMatching (currentUserId : Z) (id : string)
           (userId : option string) : M unit :=
  matching <- MatchingService.findOne (ToNumber id) ;;
  match matching with
  | None => throw (NotFoundException None)
  | Some m =>
      (* matching owner removes member from matching *)
      if currentUserId =? MatchingEntity.ownerId (MatchingWithMembers.matching m)
      then
        let uid := plus_param userId in
        if negb (truthy uid)
        then throw (BadRequestException "missing member id")
        else not_awaited (MatchingService.removeUser (ToNumber id) uid) ;;;
             ret tt
      else
        (* a member leaves *)
        not_awaited
          (MatchingService.removeUser (ToNumber id) (JInt currentUserId)) ;;;
        throw (ForbiddenException "not allowed operation")
  end.

Definition remove (currentUserId : Z) (id : string) : M unit :=
  matching <- MatchingService.findOne (ToNumber id) ;;
  match matching with
  | None => throw (NotFoundException None)
  | Some m =>
      if negb (MatchingEntity.ownerId (MatchingWithMembers.matching m)
               =? currentUserId)
      then throw (ForbiddenException "not allowed operation")
      else MatchingService.remove (ToNumber id)
  end.

End Routes.

End MatchingController.

(** ** A conversion to run the routes on *)

Definition digit_value (c : Ascii.ascii) : option Z :=
  let n := Z.of_nat (Ascii.nat_of_ascii c) in
  if (48 <=? n) && (n <=? 57) then Some (n - 48) else None.

Fixpoint digits_value (acc : Z) (s : string) : option Z :=
  match s with
  | EmptyString => Some acc
  | String c s' =>
      match digit_value c with
      | Some d => digits_value (10 * acc + d) s'
      | None => None
      end
  end.

(** The unary plus on the strings the examples use.  It agrees with
    ECMAScript's conversion on the empty string, which is [0], and on a run
    of decimal digits, which is its value; signs, fractions, exponents and
    surrounding white space are not handled, the examples pass none. *)
Definition decimal_to_number (s : string) : jsnumber :=
  match digits_value 0 s with
  | Some z => JInt z
  | None => JNaN
  end.

(** ** The claims of the spec, as it words them *)

(** The spec's time window: a YOTEI matching has elapsed when its
    [matchingDate] is reached, a QUICK matching when [createdAt + duration]
    is; [unit] is the number of milliseconds in one unit of [duration]. *)
Definition spec_window_elapsed (unit now : Z) (m : MatchingEntity.t) : bool :=
  match MatchingEntity.matchingType m with
  | YOTEI => Prisma.lte (MatchingEntity.matchingDate m) now
  | QUICK =>
      match MatchingEntity.duration m with
      | Some d => MatchingEntity.createdAt m + d * unit <=? now
      | None => false
      end
  end.

(** The sweep as the spec words it: an OPEN row whose window has elapsed
    becomes CLOSED, every other row is left as it is. *)
Definition spec_sweep_row (unit now : Z) (m : MatchingEntity.t)
  : MatchingEntity.t :=
  if MatchingStatus_eqb (MatchingEntity.status m) OPEN
     && spec_window_elapsed unit now m
  then MatchingEntity.set_status CLOSED m
  else m.

Definition sweep_as_specified (unit now : Z) (db : Db) : Prop :=
  matchings (snd (MatchingRepository.updateStatus now db))
  = map (spec_sweep_row unit now) (matchings db).

(** What the sweep of the source looks at: the row is OPEN and has a
    [matchingDate] that is reached. *)
Definition due (now : Z) (m : MatchingEntity.t) : Prop :=
  MatchingEntity.status m = OPEN
  /\ exists t, MatchingEntity.matchingDate m = Some t /\ t <= now.

Definition is_closed (m : MatchingEntity.t) : bool :=
  MatchingStatus_eqb (MatchingEntity.status m) CLOSED.

(** A QUICK matching created at time 0 for a duration of 30, still OPEN. *)
Definition quick_row : MatchingEntity.t :=
  MatchingEntity.mk 1 7 QUICK None (Some 30) OPEN 0.

Definition quick_db : Db := mkDb [quick_row] [] 2.

(** The listing as the spec words it: every returned matching has the
    requested status, OPEN when the query names none. *)
Definition status_filter_honoured
           (otherFilters : SearchQueryDto.t -> MatchingEntity.t -> bool)
           (q : SearchQueryDto.t) (db : Db) : Prop :=
  forall r,
    fst (MatchingController.list otherFilters q db) = Ok r ->
    Forall (fun m =>
              MatchingEntity.status m
              = match SearchQueryDto.status q with
                | Some s => s
                | None => OPEN
                end)
           (PaginationDto.items r).

(** The query [q] with its status filter replaced. *)
Definition with_status (s : option MatchingStatus) (q : SearchQueryDto.t)
  : SearchQueryDto.t :=
  SearchQueryDto.mk (SearchQueryDto.limit q) (SearchQueryDto.offset q) s
    (SearchQueryDto.ownerName q) (SearchQueryDto.matchBefore q)
    (SearchQueryDto.matchAfter q) (SearchQueryDto.createdBefore q)
    (SearchQueryDto.createdAfter q) (SearchQueryDto.sort q).

(** A database with one OPEN and one CLOSED matching, and the first page of
    the CLOSED ones. *)
Definition open_row : MatchingEntity.t :=
  MatchingEntity.mk 1 7 YOTEI (Some 5000) None OPEN 100.

Definition closed_row : MatchingEntity.t :=
  MatchingEntity.mk 2 7 YOTEI (Some 200) None CLOSED 100.

Definition mixed_db : Db :=
  mkDb [open_row; closed_row] [UserMatching.mk 8 1; UserMatching.mk 7 1] 3.

Definition closed_query : SearchQueryDto.t :=
  SearchQueryDto.mk 10 0 (Some CLOSED) None None None None None None.


(** The closing clause of the leave rule as it is worded: the owner's own
    membership row survives every leave request of the owner. *)
Definition owner_keeps_own_membership
           (ToNumber : string -> jsnumber) (caller : Z) (id : string)
           (userId : option string) (db : Db) : Prop :=
  forall m,
    MatchingService.findOne (ToNumber id) db = (Ok (Some m), db) ->
    caller = MatchingEntity.ownerId (MatchingWithMembers.matching m) ->
    In (UserMatching.mk caller
          (MatchingEntity.id (MatchingWithMembers.matching m)))
       (userMatchings db) ->
    In (UserMatching.mk caller
          (MatchingEntity.id (MatchingWithMembers.matching m)))
       (userMatchings
          (snd (MatchingController.leaveMatching ToNumber caller id userId db))).

(** A request that ends in a 400 response. *)
Definition rejected {A} (r : Result A * Db) : Prop :=
  exists message, fst r = Throw (BadRequestException message).

(** The duration rule as the spec words it: with a duration present, the
    validation fails exactly when the duration is negative. *)
Definition duration_check_as_claimed
           (now uid : Z) (dto : CreateMatchingDto.t) (db : Db) : Prop :=
  forall d,
    CreateMatchingDto.duration dto = Some d ->
    (rejected (MatchingController.create now uid dto db) <-> d < 0).

(** The date rule as the spec words it: a matching date at or before the
    current time is refused as an invalid matching date, nothing written. *)
Definition date_check_as_claimed
           (now uid : Z) (dto : CreateMatchingDto.t) (db : Db) : Prop :=
  forall t,
    CreateMatchingDto.matchingDate dto = Some t ->
    t <= now ->
    MatchingController.create now uid dto db
    = (Throw (BadRequestException "Invalid matching date"), db).

(** The field its type requires is there for the first check of [create]:
    a duration other than zero for QUICK, a matching date for YOTEI. *)
Definition has_required_field (dto : CreateMatchingDto.t) : Prop :=
  match CreateMatchingDto.matchingType dto with
  | QUICK => exists d, CreateMatchingDto.duration dto = Some d /\ d <> 0
  | YOTEI => exists t, CreateMatchingDto.matchingDate dto = Some t
  end.

Definition duration_not_negative (dto : CreateMatchingDto.t) : Prop :=
  forall d, CreateMatchingDto.duration dto = Some d -> 0 <= d.

(** The duration, when there is one, fits its [Int] column. *)
Definition duration_fits (dto : CreateMatchingDto.t) : Prop :=
  forall d, CreateMatchingDto.duration dto = Some d -> int32 d = true.

(** The row and the database a successful [create] leaves. *)
Definition created_row (now uid : Z) (dto : CreateMatchingDto.t) (db : Db)
  : MatchingEntity.t :=
  MatchingEntity.mk (nextId db) uid
    (CreateMatchingDto.matchingType dto)
    (CreateMatchingDto.matchingDate dto)
    (CreateMatchingDto.duration dto) OPEN now.

Definition created_db (now uid : Z) (dto : CreateMatchingDto.t) (db : Db) : Db :=
  mkDb (matchings db ++ [created_row now uid dto db]) (userMatchings db)
       (nextId db + 1).

Definition accepted (now uid : Z) (dto : CreateMatchingDto.t) (db : Db) : Prop :=
  MatchingController.create now uid dto db
  = (Ok (created_row now uid dto db), created_db now uid dto db).

Definition empty_db : Db := mkDb [] [] 1.

Definition quick_zero : CreateMatchingDto.t :=
  CreateMatchingDto.mk QUICK (Some 0) None.

Definition quick_negative : CreateMatchingDto.t :=
  CreateMatchingDto.mk QUICK (Some (-5)) None.

Definition yotei_at (t : Z) : CreateMatchingDto.t :=
  CreateMatchingDto.mk YOTEI None (Some t).

(** ** Notions for the properties of the remaining code *)

(** The query [q] asking for another page. *)
Definition with_page (offset limit : nat) (q : SearchQueryDto.t)
  : SearchQueryDto.t :=
  SearchQueryDto.mk limit offset (SearchQueryDto.status q)
    (SearchQueryDto.ownerName q) (SearchQueryDto.matchBefore q)
    (SearchQueryDto.matchAfter q) (SearchQueryDto.createdBefore q)
    (SearchQueryDto.createdAfter q) (SearchQueryDto.sort q).

(** The items of a listing, none when it threw. *)
Definition page_items (r : Result PaginationDto.t * Db)
  : list MatchingEntity.t :=
  match fst r with
  | Ok p => PaginationDto.items p
  | Throw _ => []
  end.

Definition page_total (r : Result PaginationDto.t * Db) : nat :=
  match fst r with
  | Ok p => PaginationDto.total p
  | Throw _ => 0%nat
  end.

(** The id sequence is ahead of every id in use. *)
Definition sequence_ahead (db : Db) : Prop :=
  Forall (fun m => MatchingEntity.id m < nextId db) (matchings db)
  /\ Forall (fun r => UserMatching.matchingId r < nextId db) (userMatchings db).

(** No two matchings share an id. *)
Definition ids_distinct (db : Db) : Prop :=
  NoDup (map MatchingEntity.id (matchings db)).

(** The conditions under which [create] writes: the field the type requires
    is there, the duration is not negative, the date is not in the past. *)
Definition passes_checks (now : Z) (dto : CreateMatchingDto.t) : Prop :=
  has_required_field dto
  /\ duration_not_negative dto
  /\ (forall t, CreateMatchingDto.matchingDate dto = Some t -> now <= t).

(** A search that would write if it ran: it deletes every membership row. *)
Definition wiping_search (uid : Z) (name : string) : M nat :=
  fun db => (Ok 0%nat, mkDb (matchings db) [] (nextId db)).

(** ** Tactics for the checks of [create] *)

Ltac case_checks :=
  repeat match goal with
         | |- context [if int32 ?a then _ else _] => destruct (int32 a) eqn:?
         | H : context [if int32 ?a then _ else _] |- _ =>
             destruct (int32 a) eqn:?
         | |- context [?a =? ?b] => destruct (Z.eqb_spec a b)
         | |- context [?a <? ?b] => destruct (Z.ltb_spec a b)
         | H : context [?a =? ?b] |- _ => destruct (Z.eqb_spec a b)
         | H : context [?a <? ?b] |- _ => destruct (Z.ltb_spec a b)
         end.

Ltac run_create :=
  unfold accepted, rejected, created_row, created_db,
    MatchingController.create, MatchingService.create,
    MatchingRepository.create, has_required_field, duration_not_negative,
    duration_fits, MatchingController.field_ltb, MatchingController.falsy_date,
    falsy_field, Prisma.int_field, bind, ret, throw in *;
  simpl in *.

Ltac has_field :=
  solve [ eexists; split; [reflexivity | lia] | eexists; reflexivity ].

Ltac lacks_field :=
  let E := fresh "E" in
  solve [ intros [? [E ?]]; first [discriminate E | injection E as <-; lia]
        | intros [? E]; discriminate E ].

Ltac not_negative :=
  let E := fresh "E" in
  solve [ intros ? E; first [discriminate E | injection E as <-; lia] ].

Ltac negative :=
  let N := fresh "N" in
  solve [ intros N; specialize (N _ eq_refl); lia ].

(** ** Lemmas on the building blocks *)

Lemma MatchingStatus_eqb_eq (a b : MatchingStatus) :
  MatchingStatus_eqb a b = true <-> a = b.
Proof. destruct a, b; simpl; split; congruence. Qed.

Lemma set_status_same (m : MatchingEntity.t) :
  MatchingEntity.set_status (MatchingEntity.status m) m = m.
Proof. destruct m; reflexivity. Qed.

Lemma lte_true (c : option Z) (now : Z) :
  Prisma.lte c now = true <-> exists t, c = Some t /\ t <= now.
Proof.
  destruct c as [t|]; simpl; split.
  - intros H. exists t. split; [reflexivity | now apply Z.leb_le].
  - intros [t' [E H]]. injection E as ->. now apply Z.leb_le.
  - discriminate.
  - intros [t' [E _]]. discriminate.
Qed.

Lemma where_expired_due (now : Z) (m : MatchingEntity.t) :
  MatchingRepository.where_expired now m = true <-> due now m.
Proof.
  unfold MatchingRepository.where_expired, due.
  rewrite andb_true_iff, lte_true, MatchingStatus_eqb_eq. tauto.
Qed.

Lemma where_expired_swept (now : Z) (m : MatchingEntity.t) :
  MatchingRepository.where_expired now
    (if MatchingRepository.where_expired now m
     then MatchingEntity.set_status CLOSED m else m)
  = false.
Proof.
  destruct (MatchingRepository.where_expired now m) eqn:E; [|exact E].
  unfold MatchingRepository.where_expired. simpl. apply andb_false_r.
Qed.

Lemma updateStatus_rows (now : Z) (db : Db) :
  matchings (snd (MatchingRepository.updateStatus now db))
  = map (fun m => if MatchingRepository.where_expired now m
                  then MatchingEntity.set_status CLOSED m else m)
        (matchings db).
Proof. reflexivity. Qed.

Lemma Forall2_map_self {A} (f : A -> A) (R : A -> A -> Prop) (l : list A) :
  (forall x, R x (f x)) -> Forall2 R l (map f l).
Proof.
  intros H. induction l as [|x l IH]; simpl; constructor; auto.
Qed.

(** ** The periodic sweep *)

(** C1, as the source has it: the sweep returns, touches neither the
    membership rows nor the id sequence, and row by row sets to CLOSED
    exactly the OPEN matchings whose [matchingDate] is present and reached,
    whatever their type; any other row, a QUICK matching without a
    [matchingDate] among them, is left as it was. *)
Theorem sweep_closes_by_matching_date (now : Z) (db : Db) :
  fst (MatchingRepository.updateStatus now db) = Ok tt
  /\ userMatchings (snd (MatchingRepository.updateStatus now db))
     = userMatchings db
  /\ nextId (snd (MatchingRepository.updateStatus now db)) = nextId db
  /\ Forall2
       (fun m m' =>
          (due now m -> m' = MatchingEntity.set_status CLOSED m)
          /\ (~ due now m -> m' = m)
          /\ (MatchingEntity.matchingDate m = None -> m' = m))
       (matchings db)
       (matchings (snd (MatchingRepository.updateStatus now db))).
Proof.
  split; [reflexivity|]. split; [reflexivity|]. split; [reflexivity|].
  rewrite updateStatus_rows. apply Forall2_map_self. intros m.
  destruct (MatchingRepository.where_expired now m) eqn:E.
  - apply where_expired_due in E. split; [|split].
    + intros _. reflexivity.
    + intros N. contradiction.
    + intros Hn. destruct E as [_ [t [Et _]]]. congruence.
  - assert (N : ~ due now m).
    { intros D. apply where_expired_due in D. congruence. }
    split; [|split].
    + intros D. contradiction.
    + intros _. reflexivity.
    + intros _. reflexivity.
Qed.

(** C1, the claim as worded fails: a QUICK matching created at 0 for a
    duration of 30 is still OPEN after a sweep at a time when
    [createdAt + duration] is long past, whether [duration] counts
    milliseconds, seconds or minutes. *)
Lemma sweep_misses_quick_matching :
  ~ sweep_as_specified 1 10000000 quick_db
  /\ ~ sweep_as_specified 1000 10000000 quick_db
  /\ ~ sweep_as_specified 60000 10000000 quick_db.
Proof.
  unfold sweep_as_specified. repeat split; intros H; vm_compute in H;
    discriminate H.
Qed.

(** On a database of YOTEI matchings the sweep is the one the spec words. *)
Lemma sweep_as_specified_yotei (unit now : Z) (db : Db) :
  Forall (fun m => MatchingEntity.matchingType m = YOTEI) (matchings db) ->
  sweep_as_specified unit now db.
Proof.
  intros Hy. unfold sweep_as_specified. rewrite updateStatus_rows.
  apply map_ext_in. intros m Hin.
  rewrite Forall_forall in Hy. specialize (Hy m Hin).
  unfold MatchingRepository.where_expired, spec_sweep_row, spec_window_elapsed.
  rewrite Hy. now rewrite andb_comm.
Qed.

(** C8: sweeping twice with the same clock leaves the database that sweeping
    once leaves, so the CLOSED matchings are the same; and a row that is
    already CLOSED is left as it is by a sweep at any time. *)
Theorem sweep_idempotent (now : Z) (db : Db) :
  snd (MatchingRepository.updateStatus now
         (snd (MatchingRepository.updateStatus now db)))
  = snd (MatchingRepository.updateStatus now db)
  /\ filter is_closed
       (matchings (snd (MatchingRepository.updateStatus now
                          (snd (MatchingRepository.updateStatus now db)))))
     = filter is_closed
         (matchings (snd (MatchingRepository.updateStatus now db)))
  /\ (forall now',
        Forall2 (fun m m' => MatchingEntity.status m = CLOSED -> m' = m)
          (matchings db)
          (matchings (snd (MatchingRepository.updateStatus now' db)))).
Proof.
  assert (I : snd (MatchingRepository.updateStatus now
                     (snd (MatchingRepository.updateStatus now db)))
              = snd (MatchingRepository.updateStatus now db)).
  { unfold MatchingRepository.updateStatus, Prisma.updateMany. simpl.
    f_equal. rewrite map_map. apply map_ext. intros m.
    now rewrite where_expired_swept. }
  split; [exact I|]. split; [now rewrite I|].
  intros now'. rewrite updateStatus_rows. apply Forall2_map_self.
  intros m Hc. unfold MatchingRepository.where_expired.
  rewrite Hc. simpl. now rewrite andb_false_r.
Qed.

(** ** Listing *)

Lemma insert_by_length {A} (leb : A -> A -> bool) (x : A) (l : list A) :
  length (insert_by leb x l) = S (length l).
Proof.
  induction l as [|y l IH]; simpl; [reflexivity|].
  destruct (leb x y); simpl; [reflexivity | now rewrite IH].
Qed.

Lemma sort_by_length {A} (leb : A -> A -> bool) (l : list A) :
  length (sort_by leb l) = length l.
Proof.
  induction l as [|x l IH]; simpl; [reflexivity|].
  now rewrite insert_by_length, IH.
Qed.

Lemma insert_by_In {A} (leb : A -> A -> bool) (x y : A) (l : list A) :
  In y (insert_by leb x l) <-> x = y \/ In y l.
Proof.
  induction l as [|z l IH]; simpl; [tauto|].
  destruct (leb x z); simpl; [tauto | rewrite IH; tauto].
Qed.

Lemma sort_by_In {A} (leb : A -> A -> bool) (y : A) (l : list A) :
  In y (sort_by leb l) <-> In y l.
Proof.
  induction l as [|x l IH]; simpl; [tauto|].
  rewrite insert_by_In, IH. tauto.
Qed.

Lemma orderBy_length (p : SortParam) (l : list MatchingEntity.t) :
  length (orderBy p l) = length l.
Proof. destruct p; simpl; [apply sort_by_length | reflexivity]. Qed.

Lemma orderBy_In (p : SortParam) (m : MatchingEntity.t) (l : list MatchingEntity.t) :
  In m (orderBy p l) <-> In m l.
Proof. destruct p; simpl; [apply sort_by_In | tauto]. Qed.

Lemma In_page {A} (skip take : nat) (x : A) (l : list A) :
  In x (firstn take (skipn skip l)) -> In x l.
Proof.
  intros H. rewrite <- (firstn_skipn skip l). apply in_or_app. right.
  rewrite <- (firstn_skipn take (skipn skip l)). apply in_or_app. now left.
Qed.

(** What [listActive] returns, spelled out. *)
Lemma listActive_run (q : SearchQueryDto.t) (sp : SortParam) (db : Db) :
  MatchingRepository.listActive q sp db
  = (Ok (PaginationDto.mk
           (length (filter MatchingRepository.where_open (matchings db)))
           (firstn (SearchQueryDto.limit q)
              (skipn (SearchQueryDto.offset q)
                 (orderBy sp
                    (filter MatchingRepository.where_open (matchings db)))))),
     db).
Proof. reflexivity. Qed.

Lemma listActive_items_open (q : SearchQueryDto.t) (sp : SortParam) (db : Db)
      (r : PaginationDto.t) :
  MatchingRepository.listActive q sp db = (Ok r, db) ->
  Forall (fun m => MatchingEntity.status m = OPEN /\ In m (matchings db))
         (PaginationDto.items r).
Proof.
  rewrite listActive_run. intros E. injection E as <-. simpl.
  apply Forall_forall. intros m Hm.
  apply In_page, orderBy_In, filter_In in Hm. destruct Hm as [Hin Ho].
  split; [now apply MatchingStatus_eqb_eq | exact Hin].
Qed.

(** C9: [listActive] returns; its page has at most [limit] items, namely as
    many as remain after [offset] of the rows that satisfy the query's
    [where] clause; and [total] is the number of all those rows, the same
    for every [limit], [offset] and sort order. *)
Theorem listActive_page_and_total
        (q : SearchQueryDto.t) (sp : SortParam) (db : Db) :
  exists r,
    MatchingRepository.listActive q sp db = (Ok r, db)
    /\ (length (PaginationDto.items r) <= SearchQueryDto.limit q)%nat
    /\ PaginationDto.total r
       = length (filter MatchingRepository.where_open (matchings db))
    /\ length (PaginationDto.items r)
       = Nat.min (SearchQueryDto.limit q)
                 (PaginationDto.total r - SearchQueryDto.offset q)
    /\ (forall q' sp',
          exists r',
            MatchingRepository.listActive q' sp' db = (Ok r', db)
            /\ PaginationDto.total r' = PaginationDto.total r).
Proof.
  eexists. split; [apply listActive_run|]. simpl.
  split; [apply firstn_le_length|]. split; [reflexivity|].
  split.
  - now rewrite length_firstn, length_skipn, orderBy_length.
  - intros q' sp'. eexists. split; [apply listActive_run | reflexivity].
Qed.

(** The repository's [listActive] does not read the status filter of the
    query: every matching it returns is an OPEN matching of the database,
    a requested CLOSED notwithstanding. *)
Lemma listActive_returns_open_only
      (q : SearchQueryDto.t) (sp : SortParam) (db : Db) :
  exists r,
    MatchingRepository.listActive q sp db = (Ok r, db)
    /\ Forall (fun m => MatchingEntity.status m = OPEN /\ In m (matchings db))
              (PaginationDto.items r)
    /\ (forall s, MatchingRepository.listActive (with_status s q) sp db
                  = MatchingRepository.listActive q sp db).
Proof.
  eexists. split; [apply listActive_run|]. split.
  - eapply listActive_items_open. apply listActive_run.
  - intros s. now rewrite !listActive_run.
Qed.

Lemma list_run (otherFilters : SearchQueryDto.t -> MatchingEntity.t -> bool)
      (q : SearchQueryDto.t) (db : Db) :
  MatchingController.list otherFilters q db
  = (Ok (PaginationDto.mk
           (length (filter (MatchingService.where_query otherFilters q)
                           (matchings db)))
           (firstn (SearchQueryDto.limit q)
              (skipn (SearchQueryDto.offset q)
                 (orderBy (SearchQueryDto.sort q)
                    (filter (MatchingService.where_query otherFilters q)
                            (matchings db)))))),
     db).
Proof. reflexivity. Qed.

(** C3: the listing returns; every matching it returns is a matching of the
    database whose status is the one the query names, OPEN when it names
    none; a first page that is long enough holds every matching of that
    status that passes the other filters; and [total] counts the matchings
    that satisfy the query, whatever the page. *)
Theorem list_honours_status_filter
        (otherFilters : SearchQueryDto.t -> MatchingEntity.t -> bool)
        (q : SearchQueryDto.t) (db : Db) :
  exists r,
    MatchingController.list otherFilters q db = (Ok r, db)
    /\ status_filter_honoured otherFilters q db
    /\ Forall (fun m => In m (matchings db)) (PaginationDto.items r)
    /\ PaginationDto.total r
       = length (filter (MatchingService.where_query otherFilters q)
                        (matchings db))
    /\ (SearchQueryDto.offset q = 0%nat ->
        (PaginationDto.total r <= SearchQueryDto.limit q)%nat ->
        forall m,
          In m (matchings db) ->
          MatchingEntity.status m
          = match SearchQueryDto.status q with
            | Some s => s
            | None => OPEN
            end ->
          otherFilters q m = true ->
          In m (PaginationDto.items r)).
Proof.
  assert (W : forall m,
             In m (firstn (SearchQueryDto.limit q)
                     (skipn (SearchQueryDto.offset q)
                        (orderBy (SearchQueryDto.sort q)
                           (filter (MatchingService.where_query otherFilters q)
                                   (matchings db))))) ->
             In m (matchings db)
             /\ MatchingService.where_query otherFilters q m = true).
  { intros m Hm. apply In_page, orderBy_In, filter_In in Hm. exact Hm. }
  eexists. split; [apply list_run|]. simpl.
  split; [|split; [|split]].
  - intros r E. rewrite list_run in E. simpl in E. injection E as <-. simpl.
    apply Forall_forall. intros m Hm. apply W in Hm as [_ Hw].
    unfold MatchingService.where_query in Hw.
    apply andb_true_iff in Hw as [Hs _].
    now apply MatchingStatus_eqb_eq in Hs.
  - apply Forall_forall. intros m Hm. now apply W in Hm.
  - reflexivity.
  - intros Ho Hl m Hin Hs Hf. rewrite Ho, skipn_0.
    rewrite firstn_all2; [|now rewrite orderBy_length].
    apply orderBy_In, filter_In. split; [exact Hin|].
    unfold MatchingService.where_query, MatchingService.requested_status.
    rewrite Hf, andb_true_r. now apply MatchingStatus_eqb_eq.
Qed.

Example list_closed_matchings :
  MatchingController.list (fun _ _ => true) closed_query mixed_db
  = (Ok (PaginationDto.mk 1 [closed_row]), mixed_db).
Proof. reflexivity. Qed.

Example list_without_status :
  MatchingController.list (fun _ _ => true) (with_status None closed_query)
    mixed_db
  = (Ok (PaginationDto.mk 1 [open_row]), mixed_db).
Proof. reflexivity. Qed.

(** ** Creation *)

(** Once the three checks pass, the row is written. *)
Lemma create_accepts (now uid : Z) (dto : CreateMatchingDto.t) (db : Db) :
  has_required_field dto ->
  duration_not_negative dto ->
  duration_fits dto ->
  (forall t, CreateMatchingDto.matchingDate dto = Some t -> now <= t) ->
  accepted now uid dto db.
Proof.
  destruct dto as [ty du md]. run_create. intros Hr Hd Hf Ht.
  destruct ty; simpl.
  - destruct Hr as [d [-> Hd0]]. specialize (Hd d eq_refl).
    specialize (Hf d eq_refl).
    destruct md as [t|]; simpl.
    + specialize (Ht t eq_refl). rewrite Hf. case_checks; try lia. reflexivity.
    + rewrite Hf. case_checks; try lia. reflexivity.
  - destruct Hr as [t ->]. specialize (Ht t eq_refl). simpl.
    destruct du as [d|]; simpl.
    + specialize (Hd d eq_refl). specialize (Hf d eq_refl). rewrite Hf.
      case_checks; try lia; reflexivity.
    + case_checks; try lia. reflexivity.
Qed.

(** C4, as the source has it: with a duration [d] present, [create] answers
    "Invalid duration" exactly when [d] is negative and the field the type
    requires is there; a negative [d] is always refused and nothing is
    written; [d = 0] is not refused as an invalid duration, and a YOTEI
    input with [d = 0] and a matching date not before the current time is
    accepted, while a QUICK input with [d = 0] is refused by the first check
    as missing its duration. *)
Theorem duration_check (now uid : Z) (dto : CreateMatchingDto.t) (db : Db)
        (d : Z) (Hd : CreateMatchingDto.duration dto = Some d) :
  (MatchingController.create now uid dto db
   = (Throw (BadRequestException "Invalid duration"), db)
   <-> d < 0 /\ has_required_field dto)
  /\ (d < 0 ->
      rejected (MatchingController.create now uid dto db)
      /\ snd (MatchingController.create now uid dto db) = db)
  /\ (d = 0 ->
      CreateMatchingDto.matchingType dto = YOTEI ->
      forall t, CreateMatchingDto.matchingDate dto = Some t -> now <= t ->
      accepted now uid dto db)
  /\ (d = 0 ->
      CreateMatchingDto.matchingType dto = QUICK ->
      MatchingController.create now uid dto db
      = (Throw (BadRequestException "Missing duration or matching date"), db)).
Proof.
  split; [|split; [|split]].
  - destruct dto as [ty du md]. run_create. subst du.
    destruct ty, md as [t|]; simpl; case_checks; split;
      try (intros E; discriminate E);
      try (intros [Hlt Hr]);
      try (intros _);
      try lia;
      try reflexivity;
      try (split; [lia|]; eauto);
      try (destruct Hr as [? [E ?]]; injection E as <-; lia);
      try (destruct Hr as [? E]; discriminate E).
  - intros Hlt. destruct dto as [ty du md]. run_create. subst du.
    destruct ty, md as [t|]; simpl; case_checks; try lia;
      (split; [eexists; reflexivity | reflexivity]).
  - intros -> Hty t Ht Hle. apply create_accepts.
    + unfold has_required_field. rewrite Hty. eauto.
    + intros d' Hd'. rewrite Hd in Hd'. injection Hd' as <-. lia.
    + intros d' Hd'. rewrite Hd in Hd'. injection Hd' as <-. reflexivity.
    + intros t' Ht'. rewrite Ht in Ht'. injection Ht' as <-. exact Hle.
  - intros -> Hty. destruct dto as [ty du md]. run_create. subst. reflexivity.
Qed.

(** C4, the claim as worded fails: a QUICK input with a duration of zero is
    refused, although zero is not negative. *)
Lemma quick_zero_duration_rejected :
  MatchingController.create 1000 7 quick_zero empty_db
  = (Throw (BadRequestException "Missing duration or matching date"), empty_db)
  /\ ~ duration_check_as_claimed 1000 7 quick_zero empty_db.
Proof.
  split; [reflexivity|].
  intros H. specialize (H 0 eq_refl). destruct H as [H _].
  assert (L : 0 < 0); [|lia].
  apply H. eexists. reflexivity.
Qed.

Lemma duration_check_witness :
  CreateMatchingDto.duration quick_negative = Some (-5)
  /\ MatchingController.create 1000 7 quick_negative empty_db
     = (Throw (BadRequestException "Invalid duration"), empty_db).
Proof.
  split; [reflexivity|].
  apply (duration_check 1000 7 quick_negative empty_db (-5) eq_refl).
  split; [lia|]. exists (-5). split; [reflexivity | lia].
Defined.

(** C5, as the source has it: with a matching date [t] present, a date
    strictly before the current time is always refused and nothing is
    written, as an "Invalid matching date" when the two earlier checks pass;
    that answer is given for no other date; and a date equal to the current
    time, like any later one, is accepted when the earlier checks pass and
    the duration, if there is one, fits its 32-bit column. *)
Theorem matching_date_check (now uid : Z) (dto : CreateMatchingDto.t) (db : Db)
        (t : Z) (Ht : CreateMatchingDto.matchingDate dto = Some t) :
  (t < now ->
   rejected (MatchingController.create now uid dto db)
   /\ snd (MatchingController.create now uid dto db) = db)
  /\ (MatchingController.create now uid dto db
      = (Throw (BadRequestException "Invalid matching date"), db)
      <-> t < now /\ has_required_field dto /\ duration_not_negative dto)
  /\ (now <= t ->
      has_required_field dto -> duration_not_negative dto ->
      duration_fits dto ->
      accepted now uid dto db).
Proof.
  split; [|split].
  - intros Hlt. destruct dto as [ty du md]. run_create. subst md.
    destruct ty, du as [d|]; simpl; case_checks; try lia;
      (split; [eexists; reflexivity | reflexivity]).
  - destruct dto as [ty du md]. run_create. subst md.
    destruct ty, du as [d|]; simpl; case_checks; split;
      try (intros E; discriminate E);
      try (intros [Hlt [Hr Hn]]);
      try (intros _);
      try lia;
      try reflexivity;
      try (destruct Hr as [? [E ?]]; first [discriminate E | injection E as <-; lia]);
      try (specialize (Hn _ eq_refl); lia);
      try (split; [lia|]; split; [eauto|]; intros ? E;
           first [discriminate E | injection E as <-; lia]).
  - intros Hle Hr Hn Hf. apply create_accepts; try assumption.
    intros t' Ht'. rewrite Ht in Ht'. injection Ht' as <-. exact Hle.
Qed.

Lemma matching_date_check_witness :
  CreateMatchingDto.matchingDate (yotei_at 999) = Some 999
  /\ MatchingController.create 1000 7 (yotei_at 999) empty_db
     = (Throw (BadRequestException "Invalid matching date"), empty_db).
Proof.
  split; [reflexivity|].
  apply (matching_date_check 1000 7 (yotei_at 999) empty_db 999 eq_refl).
  split; [lia|]. split; [exists 999; reflexivity|].
  intros d E. discriminate E.
Defined.

(** C5, the claim as worded fails: a YOTEI matching whose date is exactly
    the current time is created. *)
Lemma matching_date_now_accepted :
  MatchingController.create 1000 7 (yotei_at 1000) empty_db
  = (Ok (MatchingEntity.mk 1 7 YOTEI (Some 1000) None OPEN 1000),
     mkDb [MatchingEntity.mk 1 7 YOTEI (Some 1000) None OPEN 1000] [] 2)
  /\ ~ date_check_as_claimed 1000 7 (yotei_at 1000) empty_db.
Proof.
  split; [reflexivity|].
  intros H. specialize (H 1000 eq_refl (Z.le_refl 1000)). discriminate H.
Qed.

(** ** Membership and deletion *)

Lemma filter_without_match {A} (f : A -> bool) (l : list A) :
  existsb f l = false -> filter (fun x => negb (f x)) l = l.
Proof.
  induction l as [|x l IH]; simpl; [reflexivity|].
  intros H. apply orb_false_iff in H as [Hx Hl].
  rewrite Hx. simpl. now rewrite IH.
Qed.

Lemma find_absent {A} (f : A -> bool) (l : list A) :
  (forall x, In x l -> f x = false) -> find f l = None.
Proof.
  induction l as [|x l IH]; simpl; [reflexivity|].
  intros H. rewrite (H x (or_introl eq_refl)). apply IH.
  intros y Hy. apply H. now right.
Qed.

(** A matching that [findOne] returns is the first row of the database with
    the requested id, which is an integer. *)
Lemma int_arg_ok (n : jsnumber) (z : Z) (db : Db) :
  as_int n = Some z -> int32 z = true -> Prisma.int_arg n db = (Ok z, db).
Proof. intros A I. unfold Prisma.int_arg. now rewrite A, I. Qed.

Lemma int_arg_inv (n : jsnumber) (z : Z) (db db' : Db) :
  Prisma.int_arg n db = (Ok z, db') ->
  as_int n = Some z /\ int32 z = true /\ db' = db.
Proof.
  unfold Prisma.int_arg. destruct (as_int n) as [k|]; [|discriminate].
  destruct (int32 k) eqn:I; [|discriminate].
  intros E. injection E as <- <-. auto.
Qed.

Lemma int_arg_reads_only (n : jsnumber) (db : Db) :
  snd (Prisma.int_arg n db) = db.
Proof.
  unfold Prisma.int_arg. destruct (as_int n) as [k|]; [|reflexivity].
  now destruct (int32 k).
Qed.

(** A matching that [findOne] returns is the first row of the database
    whose id is the integer the database received, which fits the column. *)
Lemma findOne_found (n : jsnumber) (db db' : Db) (m : MatchingWithMembers.t) :
  MatchingService.findOne n db = (Ok (Some m), db') ->
  as_int n = Some (MatchingEntity.id (MatchingWithMembers.matching m))
  /\ int32 (MatchingEntity.id (MatchingWithMembers.matching m)) = true
  /\ db' = db
  /\ In (MatchingWithMembers.matching m) (matchings db).
Proof.
  unfold MatchingService.findOne, MatchingRepository.findOne, bind.
  destruct (Prisma.int_arg n db) as [[z|e] db1] eqn:A; [|discriminate].
  apply int_arg_inv in A as [A [I ->]].
  destruct (find (fun m0 => MatchingEntity.id m0 =? z) (matchings db))
    as [row|] eqn:F; [|discriminate].
  intros E. injection E as <- <-. simpl.
  apply find_some in F as [Hin Hid]. apply Z.eqb_eq in Hid.
  rewrite Hid. auto.
Qed.

(** What the dropped call of [removeUser] leaves in the database when both
    numbers reach the database as integers that fit. *)
Lemma removeUser_leaves (a b : jsnumber) (mid uid : Z) (db : Db) :
  as_int a = Some mid -> int32 mid = true ->
  as_int b = Some uid -> int32 uid = true ->
  snd (MatchingService.removeUser a b db)
  = mkDb (matchings db)
         (filter (fun r => negb (UserMatching.has_key mid uid r))
                 (userMatchings db))
         (nextId db).
Proof.
  intros A Ia B Ib.
  unfold MatchingService.removeUser, MatchingRepository.removeUserFromMatching,
    bind.
  rewrite (int_arg_ok _ _ _ A Ia), (int_arg_ok _ _ _ B Ib).
  destruct (existsb (UserMatching.has_key mid uid) (userMatchings db)) eqn:E;
    simpl; [reflexivity|].
  rewrite (filter_without_match _ _ E). now destruct db.
Qed.

(** In every case the dropped call leaves the database as it was or without
    the one row its two numbers name. *)
Lemma removeUser_effect (a b : jsnumber) (db : Db) :
  snd (MatchingService.removeUser a b db) = db
  \/ exists mid uid,
       as_int a = Some mid /\ as_int b = Some uid
       /\ snd (MatchingService.removeUser a b db)
          = mkDb (matchings db)
                 (filter (fun r => negb (UserMatching.has_key mid uid r))
                         (userMatchings db))
                 (nextId db).
Proof.
  destruct (as_int a) as [mid|] eqn:A.
  - destruct (int32 mid) eqn:Ia.
    + destruct (as_int b) as [uid|] eqn:B.
      * destruct (int32 uid) eqn:Ib.
        -- right. exists mid, uid. split; [reflexivity|]. split; [reflexivity|].
           now apply removeUser_leaves.
        -- left. unfold MatchingService.removeUser,
             MatchingRepository.removeUserFromMatching, bind.
           rewrite (int_arg_ok _ _ _ A Ia). unfold Prisma.int_arg.
           now rewrite B, Ib.
      * left. unfold MatchingService.removeUser,
          MatchingRepository.removeUserFromMatching, bind.
        rewrite (int_arg_ok _ _ _ A Ia). unfold Prisma.int_arg.
        now rewrite B.
    + left. unfold MatchingService.removeUser,
        MatchingRepository.removeUserFromMatching, bind, Prisma.int_arg.
      now rewrite A, Ia.
  - left. unfold MatchingService.removeUser,
      MatchingRepository.removeUserFromMatching, bind, Prisma.int_arg.
    now rewrite A.
Qed.

(** The dropped call writes no matching and leaves the id sequence. *)
Lemma removeUser_effect_rows (a b : jsnumber) (db : Db) :
  matchings (snd (MatchingService.removeUser a b db)) = matchings db
  /\ nextId (snd (MatchingService.removeUser a b db)) = nextId db.
Proof.
  destruct (removeUser_effect a b db) as [E | [mid [uid [_ [_ E]]]]];
    rewrite E; split; reflexivity.
Qed.

Section Routes.

Variable ToNumber : string -> jsnumber.

(** C2: when a caller who is not the owner asks to leave an existing
    matching, the request fails with ForbiddenException "not allowed
    operation" and no matching is written; and, the caller's id being the
    32-bit integer an account id is, the membership row of the caller is
    deleted while every other row stays as it was. *)
Theorem member_leave_removes_then_forbidden
        (caller : Z) (id : string) (userId : option string) (db : Db)
        (m : MatchingWithMembers.t)
        (Hm : MatchingService.findOne (ToNumber id) db = (Ok (Some m), db))
        (Hc : caller <> MatchingEntity.ownerId (MatchingWithMembers.matching m)) :
  exists db',
    MatchingController.leaveMatching ToNumber caller id userId db
    = (Throw (ForbiddenException "not allowed operation"), db')
    /\ matchings db' = matchings db
    /\ nextId db' = nextId db
    /\ (int32 caller = true ->
        userMatchings db'
        = filter (fun r =>
                    negb (UserMatching.has_key
                            (MatchingEntity.id (MatchingWithMembers.matching m))
                            caller r))
                 (userMatchings db)
        /\ ~ In (UserMatching.mk caller
                   (MatchingEntity.id (MatchingWithMembers.matching m)))
                (userMatchings db')).
Proof.
  destruct (findOne_found _ _ _ _ Hm) as [Hn [Hr _]].
  set (mid := MatchingEntity.id (MatchingWithMembers.matching m)) in *.
  exists (snd (MatchingService.removeUser (ToNumber id) (JInt caller) db)).
  split; [|split; [|split]].
  - unfold MatchingController.leaveMatching, bind. rewrite Hm.
    destruct (Z.eqb_spec caller
                (MatchingEntity.ownerId (MatchingWithMembers.matching m)));
      [contradiction|].
    reflexivity.
  - apply removeUser_effect_rows.
  - apply removeUser_effect_rows.
  - intros Hi.
    rewrite (removeUser_leaves (ToNumber id) (JInt caller) mid caller db
               Hn Hr eq_refl Hi).
    simpl. split; [reflexivity|].
    intros Hin. apply filter_In in Hin as [_ Hk].
    unfold UserMatching.has_key in Hk. simpl in Hk.
    rewrite !Z.eqb_refl in Hk. discriminate Hk.
Qed.

(** C10, as the source has it: when the owner of an existing matching asks
    to leave and the [userId] parameter is missing or converts to [NaN] or
    to [0], the request fails with BadRequestException "missing member id"
    and the database is as before, so no membership row is removed and the
    caller's id is not used in place of the missing one; but when the
    parameter converts to any other number that reaches the database as an
    integer fitting the column, the row of that user is deleted and the
    request succeeds, and that number may be the owner's own id. *)
Theorem owner_leave_without_member_id
        (caller : Z) (id : string) (userId : option string) (db : Db)
        (m : MatchingWithMembers.t)
        (Hm : MatchingService.findOne (ToNumber id) db = (Ok (Some m), db))
        (Ho : caller = MatchingEntity.ownerId (MatchingWithMembers.matching m)) :
  (userId = None
   \/ MatchingController.plus_param ToNumber userId = JNaN
   \/ MatchingController.plus_param ToNumber userId = JInt 0 ->
   MatchingController.leaveMatching ToNumber caller id userId db
   = (Throw (BadRequestException "missing member id"), db)
   /\ (forall r,
         In r (userMatchings db) ->
         In r (userMatchings
                 (snd (MatchingController.leaveMatching ToNumber caller id
                         userId db)))))
  /\ (forall uid,
        as_int (MatchingController.plus_param ToNumber userId) = Some uid ->
        MatchingController.plus_param ToNumber userId <> JInt 0 ->
        int32 uid = true ->
        MatchingController.leaveMatching ToNumber caller id userId db
        = (Ok tt,
           mkDb (matchings db)
                (filter (fun r =>
                           negb (UserMatching.has_key
                                   (MatchingEntity.id
                                      (MatchingWithMembers.matching m))
                                   uid r))
                        (userMatchings db))
                (nextId db))).
Proof.
  destruct (findOne_found _ _ _ _ Hm) as [Hn [Hr _]].
  split.
  - intros Hu.
    assert (E : MatchingController.leaveMatching ToNumber caller id userId db
                = (Throw (BadRequestException "missing member id"), db)).
    { unfold MatchingController.leaveMatching, bind. rewrite Hm.
      rewrite <- Ho, Z.eqb_refl.
      assert (T : truthy (MatchingController.plus_param ToNumber userId) = false).
      { destruct Hu as [-> | [-> | ->]]; reflexivity. }
      rewrite T. reflexivity. }
    split; [exact E|]. intros r Hin. rewrite E. exact Hin.
  - intros uid Hu Hz Hi.
    unfold MatchingController.leaveMatching, bind. rewrite Hm.
    rewrite <- Ho, Z.eqb_refl.
    assert (T : truthy (MatchingController.plus_param ToNumber userId) = true).
    { destruct (MatchingController.plus_param ToNumber userId) as [|z|k|];
        simpl in *; try discriminate; try reflexivity.
      destruct (Z.eqb_spec z 0); [subst z; contradiction | reflexivity]. }
    rewrite T. simpl. unfold not_awaited.
    now rewrite (removeUser_leaves _ _ _ uid db Hn Hr Hu Hi).
Qed.

(** C7: when a caller who is not the owner asks to delete an existing
    matching, the request fails with ForbiddenException and the database,
    matchings and membership rows alike, is as before. *)
Theorem remove_by_non_owner
        (caller : Z) (id : string) (db : Db) (m : MatchingWithMembers.t)
        (Hm : MatchingService.findOne (ToNumber id) db = (Ok (Some m), db))
        (Hc : MatchingEntity.ownerId (MatchingWithMembers.matching m) <> caller) :
  MatchingController.remove ToNumber caller id db
  = (Throw (ForbiddenException "not allowed operation"), db).
Proof.
  unfold MatchingController.remove, bind. rewrite Hm.
  destruct (Z.eqb_spec
              (MatchingEntity.ownerId (MatchingWithMembers.matching m)) caller);
    [contradiction | reflexivity].
Qed.


End Routes.

(** ** The routes on a database with two matchings *)

Lemma member_leave_removes_then_forbidden_witness :
  8 <> 7
  /\ int32 8 = true
  /\ exists db',
       MatchingController.leaveMatching decimal_to_number 8 "1" None mixed_db
       = (Throw (ForbiddenException "not allowed operation"), db')
       /\ userMatchings db' = [UserMatching.mk 7 1].
Proof.
  assert (N : 8 <> 7) by lia.
  split; [exact N|]. split; [reflexivity|].
  destruct (member_leave_removes_then_forbidden decimal_to_number 8 "1" None
              mixed_db
              (MatchingWithMembers.mk open_row
                 [UserMatching.mk 8 1; UserMatching.mk 7 1])
              eq_refl N)
    as [db' [E [_ [_ F]]]].
  exists db'. split; [exact E|].
  destruct (F eq_refl) as [F' _]. rewrite F'. reflexivity.
Defined.

Lemma owner_leave_without_member_id_witness :
  MatchingController.leaveMatching decimal_to_number 7 "1" (Some "0"%string)
    mixed_db
  = (Throw (BadRequestException "missing member id"), mixed_db)
  /\ MatchingController.leaveMatching decimal_to_number 7 "1"
       (Some "8"%string) mixed_db
     = (Ok tt, mkDb [open_row; closed_row] [UserMatching.mk 7 1] 3).
Proof.
  split.
  - apply (owner_leave_without_member_id decimal_to_number 7 "1"
             (Some "0"%string) mixed_db
             (MatchingWithMembers.mk open_row
                [UserMatching.mk 8 1; UserMatching.mk 7 1])
             eq_refl eq_refl).
    right. right. reflexivity.
  - apply (proj2 (owner_leave_without_member_id decimal_to_number 7 "1"
                    (Some "8"%string) mixed_db
                    (MatchingWithMembers.mk open_row
                       [UserMatching.mk 8 1; UserMatching.mk 7 1])
                    eq_refl eq_refl) 8 eq_refl).
    + discriminate.
    + reflexivity.
Defined.

(** C10, the claim as worded fails in its closing clause: the owner of
    matching 1, user 7, who holds a membership row of it, names their own id
    and the row is deleted. *)
Lemma owner_removes_own_membership :
  MatchingController.leaveMatching decimal_to_number 7 "1" (Some "7"%string)
    mixed_db
  = (Ok tt, mkDb [open_row; closed_row] [UserMatching.mk 8 1] 3)
  /\ ~ owner_keeps_own_membership decimal_to_number 7 "1" (Some "7"%string)
        mixed_db.
Proof.
  split; [reflexivity|].
  intros H.
  specialize (H (MatchingWithMembers.mk open_row
                   [UserMatching.mk 8 1; UserMatching.mk 7 1])
                eq_refl eq_refl).
  simpl in H.
  destruct H as [E | []]; [right; left; reflexivity | discriminate E].
Qed.

Lemma remove_by_non_owner_witness :
  7 <> 8
  /\ MatchingController.remove decimal_to_number 8 "2" mixed_db
     = (Throw (ForbiddenException "not allowed operation"), mixed_db).
Proof.
  split; [lia|].
  apply (remove_by_non_owner decimal_to_number 8 "2" mixed_db
           (MatchingWithMembers.mk closed_row []) eq_refl).
  simpl. lia.
Defined.



Example owner_leave_missing_parameter :
  MatchingController.leaveMatching decimal_to_number 7 "1" None mixed_db
  = (Throw (BadRequestException "missing member id"), mixed_db).
Proof. reflexivity. Qed.

Example leave_unknown_matching :
  MatchingController.leaveMatching decimal_to_number 8 "9" None mixed_db
  = (Throw (NotFoundException None), mixed_db).
Proof. reflexivity. Qed.

Example join_existing_matching :
  MatchingController.joinMatching decimal_to_number 9 "1" mixed_db
  = (Ok tt,
     mkDb [open_row; closed_row]
          [UserMatching.mk 8 1; UserMatching.mk 7 1; UserMatching.mk 9 1] 3).
Proof. reflexivity. Qed.

Example remove_by_owner :
  MatchingController.remove decimal_to_number 7 "1" mixed_db
  = (Ok tt, mkDb [closed_row] [] 3).
Proof. reflexivity. Qed.

Example sweep_closes_reached_date :
  snd (MatchingRepository.updateStatus 6000 mixed_db)
  = mkDb [MatchingEntity.set_status CLOSED open_row; closed_row]
         [UserMatching.mk 8 1; UserMatching.mk 7 1] 3.
Proof. reflexivity. Qed.

Example create_yotei_with_zero_duration :
  fst (MatchingController.create 1000 7
         (CreateMatchingDto.mk YOTEI (Some 0) (Some 5000)) empty_db)
  = Ok (MatchingEntity.mk 1 7 YOTEI (Some 5000) (Some 0) OPEN 1000).
Proof. reflexivity. Qed.

(** ** Paging, beyond the claims *)

Lemma getMatchingOfUser_run (id : Z) (q : SearchQueryDto.t) (db : Db) :
  MatchingRepository.getMatchingOfUser id q db
  = (Ok (PaginationDto.mk
           (length (filter (MatchingRepository.where_owner id) (matchings db)))
           (firstn (SearchQueryDto.limit q)
              (skipn (SearchQueryDto.offset q)
                 (filter (MatchingRepository.where_owner id) (matchings db))))),
     db).
Proof. reflexivity. Qed.

Lemma filter_split_length {A} (f g : A -> bool) (l : list A) :
  length (filter f l)
  = (length (filter (fun x => f x && g x) l)
     + length (filter (fun x => f x && negb (g x)) l))%nat.
Proof.
  induction l as [|x l IH]; simpl; [reflexivity|].
  destruct (f x), (g x); simpl; rewrite IH; lia.
Qed.

Lemma pages_concat {A} (o a b : nat) (l : list A) :
  firstn a (skipn o l) ++ firstn b (skipn (o + a) l)
  = firstn (a + b) (skipn o l).
Proof.
  rewrite (Nat.add_comm o a), <- skipn_skipn.
  generalize (skipn o l) as k. clear l.
  induction a as [|a IH]; intros k; simpl; [reflexivity|].
  destruct k as [|x k]; simpl.
  - now rewrite firstn_nil.
  - now rewrite IH.
Qed.

Lemma insert_by_perm {A} (leb : A -> A -> bool) (x : A) (l : list A) :
  Permutation (insert_by leb x l) (x :: l).
Proof.
  induction l as [|y l IH]; simpl; [reflexivity|].
  destruct (leb x y); [reflexivity|].
  rewrite IH. apply perm_swap.
Qed.

Lemma sort_by_perm {A} (leb : A -> A -> bool) (l : list A) :
  Permutation (sort_by leb l) l.
Proof.
  induction l as [|x l IH]; simpl; [reflexivity|].
  rewrite insert_by_perm. now constructor.
Qed.

Lemma orderBy_perm (p : SortParam) (l : list MatchingEntity.t) :
  Permutation (orderBy p l) l.
Proof. destruct p; simpl; [apply sort_by_perm | reflexivity]. Qed.

(** X1: the listing of a user's own matchings returns; each item is a
    matching of the database owned by that user; the page holds as many
    items as remain after [offset], at most [limit]; and [total] counts the
    user's OPEN and CLOSED matchings alike. *)
Theorem getMatchingOfUser_page (id : Z) (q : SearchQueryDto.t) (db : Db) :
  exists r,
    MatchingController.getMyMatchings id q db = (Ok r, db)
    /\ Forall (fun m => MatchingEntity.ownerId m = id /\ In m (matchings db))
              (PaginationDto.items r)
    /\ length (PaginationDto.items r)
       = Nat.min (SearchQueryDto.limit q)
                 (PaginationDto.total r - SearchQueryDto.offset q)
    /\ PaginationDto.total r
       = (length (filter (fun m => (MatchingEntity.ownerId m =? id)%Z
                                   && MatchingRepository.where_open m)
                         (matchings db))
          + length (filter (fun m => (MatchingEntity.ownerId m =? id)%Z
                                     && negb (MatchingRepository.where_open m))
                           (matchings db)))%nat.
Proof.
  unfold MatchingController.getMyMatchings, MatchingService.getMatchingsOfUser.
  eexists. split; [apply getMatchingOfUser_run|]. simpl. split; [|split].
  - apply Forall_forall. intros m Hm.
    apply In_page, filter_In in Hm. destruct Hm as [Hin Ho].
    split; [now apply Z.eqb_eq | exact Hin].
  - now rewrite length_firstn, length_skipn.
  - apply (filter_split_length (MatchingRepository.where_owner id)).
Qed.

(** X2: consecutive pages join up: the page of [a] items at [offset]
    followed by the page of [b] items at [offset + a] is the page of
    [a + b] items at [offset], for the public listing and for the listing
    of a user's own matchings. *)
Theorem pages_join_up (q : SearchQueryDto.t) (sp : SortParam) (id : Z)
        (db : Db) (o a b : nat) :
  page_items (MatchingRepository.listActive (with_page o a q) sp db)
  ++ page_items (MatchingRepository.listActive (with_page (o + a) b q) sp db)
  = page_items (MatchingRepository.listActive (with_page o (a + b) q) sp db)
  /\ page_items (MatchingRepository.getMatchingOfUser id (with_page o a q) db)
     ++ page_items
          (MatchingRepository.getMatchingOfUser id (with_page (o + a) b q) db)
     = page_items
         (MatchingRepository.getMatchingOfUser id (with_page o (a + b) q) db).
Proof.
  rewrite !listActive_run, !getMatchingOfUser_run. unfold page_items. simpl.
  split; apply pages_concat.
Qed.

(** X3: a page that starts at the beginning and is long enough holds every
    OPEN matching of the database exactly once, whatever the sort order. *)
Theorem first_page_holds_all_open
        (q : SearchQueryDto.t) (sp : SortParam) (db : Db)
        (Ho : SearchQueryDto.offset q = 0%nat)
        (Hl : (length (filter MatchingRepository.where_open (matchings db))
               <= SearchQueryDto.limit q)%nat) :
  Permutation (page_items (MatchingRepository.listActive q sp db))
              (filter MatchingRepository.where_open (matchings db))
  /\ (forall m, In m (matchings db) -> MatchingEntity.status m = OPEN ->
                In m (page_items (MatchingRepository.listActive q sp db))).
Proof.
  assert (P : Permutation (page_items (MatchingRepository.listActive q sp db))
                (filter MatchingRepository.where_open (matchings db))).
  { rewrite listActive_run. unfold page_items. simpl. rewrite Ho, skipn_0.
    rewrite firstn_all2; [apply orderBy_perm|].
    now rewrite orderBy_length. }
  split; [exact P|]. intros m Hin Hs.
  apply (Permutation_in m (Permutation_sym P)).
  apply filter_In. split; [exact Hin|].
  now apply MatchingStatus_eqb_eq.
Qed.

Lemma first_page_holds_all_open_witness :
  Permutation (page_items (MatchingRepository.listActive closed_query
                             (Some (ByCreatedAt, Desc)) mixed_db))
              [open_row].
Proof.
  apply (first_page_holds_all_open closed_query (Some (ByCreatedAt, Desc))
           mixed_db eq_refl).
  simpl. lia.
Defined.

(** X4: a page of no items, or one that starts at or after the end, is
    empty, and [total] still counts every OPEN matching. *)
Theorem page_beyond_the_rows
        (q : SearchQueryDto.t) (sp : SortParam) (db : Db)
        (Hq : SearchQueryDto.limit q = 0%nat
              \/ (length (filter MatchingRepository.where_open (matchings db))
                  <= SearchQueryDto.offset q)%nat) :
  MatchingRepository.listActive q sp db
  = (Ok (PaginationDto.mk
           (length (filter MatchingRepository.where_open (matchings db))) []),
     db).
Proof.
  rewrite listActive_run. do 2 f_equal. f_equal.
  destruct Hq as [-> | Hq]; [reflexivity|].
  rewrite skipn_all2; [apply firstn_nil|].
  now rewrite orderBy_length.
Qed.

Lemma page_beyond_the_rows_witness :
  MatchingRepository.listActive (with_page 1 10 closed_query) None mixed_db
  = (Ok (PaginationDto.mk 1 []), mixed_db).
Proof.
  apply (page_beyond_the_rows (with_page 1 10 closed_query) None mixed_db).
  right. simpl. lia.
Defined.

(** ** The sweep and the other operations *)

Lemma sweep_row_id (now : Z) (m : MatchingEntity.t) :
  MatchingEntity.id
    (if MatchingRepository.where_expired now m
     then MatchingEntity.set_status CLOSED m else m)
  = MatchingEntity.id m.
Proof. now destruct (MatchingRepository.where_expired now m). Qed.

Lemma sweep_row_owner (now : Z) (m : MatchingEntity.t) :
  MatchingEntity.ownerId
    (if MatchingRepository.where_expired now m
     then MatchingEntity.set_status CLOSED m else m)
  = MatchingEntity.ownerId m.
Proof. now destruct (MatchingRepository.where_expired now m). Qed.

Lemma existsb_id_swept (now z : Z) (l : list MatchingEntity.t) :
  existsb (fun m => MatchingEntity.id m =? z)
    (map (fun m => if MatchingRepository.where_expired now m
                   then MatchingEntity.set_status CLOSED m else m) l)
  = existsb (fun m => MatchingEntity.id m =? z) l.
Proof.
  induction l as [|m l IH]; simpl; [reflexivity|].
  now rewrite sweep_row_id, IH.
Qed.

Lemma count_after_sweep (now : Z) (l : list MatchingEntity.t) :
  (length (filter MatchingRepository.where_open
             (map (fun m => if MatchingRepository.where_expired now m
                            then MatchingEntity.set_status CLOSED m else m) l))
   + length (filter (MatchingRepository.where_expired now) l)
   = length (filter MatchingRepository.where_open l))%nat.
Proof.
  induction l as [|m l IH]; simpl; [reflexivity|].
  destruct (MatchingRepository.where_expired now m) eqn:W.
  - assert (O : MatchingRepository.where_open m = true).
    { unfold MatchingRepository.where_expired in W.
      now apply andb_true_iff in W as [_ W]. }
    rewrite O. unfold MatchingRepository.where_open at 1. simpl. lia.
  - destruct (MatchingRepository.where_open m); simpl; lia.
Qed.

(** X5: two sweeps in a row amount to one sweep at the later of the two
    clocks, in whichever order they ran. *)
Theorem sweeps_compose (t1 t2 : Z) (db : Db) :
  snd (MatchingRepository.updateStatus t2
         (snd (MatchingRepository.updateStatus t1 db)))
  = snd (MatchingRepository.updateStatus (Z.max t1 t2) db).
Proof.
  unfold MatchingRepository.updateStatus, Prisma.updateMany. simpl.
  f_equal. rewrite map_map. apply map_ext. intros m.
  unfold MatchingRepository.where_expired.
  destruct m as [i o ty md du st ca]. simpl.
  destruct st; simpl; rewrite ?andb_true_r, ?andb_false_r; simpl.
  - destruct md as [t|]; simpl; [|reflexivity].
    destruct (Z.leb_spec t t1), (Z.leb_spec t t2), (Z.leb_spec t (Z.max t1 t2));
      simpl; rewrite ?andb_true_r, ?andb_false_r; simpl;
      try reflexivity; try lia;
      destruct (Z.leb_spec t t2); simpl; try reflexivity; lia.
  - reflexivity.
Qed.

(** X6: right after a sweep, the public listing shows no matching whose
    date was reached: every item is OPEN with no matching date or one later
    than the sweep's clock; and [total] has dropped by the number of rows
    the sweep closed. *)
Theorem listing_after_sweep
        (now : Z) (q : SearchQueryDto.t) (sp : SortParam) (db : Db) :
  Forall (fun m =>
            MatchingEntity.status m = OPEN
            /\ (MatchingEntity.matchingDate m = None
                \/ exists t, MatchingEntity.matchingDate m = Some t /\ now < t))
         (page_items
            (MatchingRepository.listActive q sp
               (snd (MatchingRepository.updateStatus now db))))
  /\ (page_total
        (MatchingRepository.listActive q sp
           (snd (MatchingRepository.updateStatus now db)))
      + length (filter (MatchingRepository.where_expired now) (matchings db))
      = page_total (MatchingRepository.listActive q sp db))%nat.
Proof.
  rewrite !listActive_run. unfold page_items, page_total. simpl. split.
  - apply Forall_forall. intros m Hm.
    apply In_page, orderBy_In, filter_In in Hm. destruct Hm as [Hin Ho].
    apply in_map_iff in Hin as [m0 [E _]].
    apply MatchingStatus_eqb_eq in Ho. split; [exact Ho|].
    destruct (MatchingRepository.where_expired now m0) eqn:W.
    + subst m. simpl in Ho. discriminate Ho.
    + subst m. unfold MatchingRepository.where_expired in W.
      rewrite Ho in W. simpl in W. rewrite andb_true_r in W.
      destruct (MatchingEntity.matchingDate m0) as [t|]; [|now left].
      right. exists t. split; [reflexivity|]. simpl in W.
      apply Z.leb_gt in W. exact W.
  - apply count_after_sweep.
Qed.

(** X7: a sweep does not change what a user's own listing counts, nor which
    matchings, by id, a page of it holds. *)
Theorem own_listing_after_sweep
        (now id : Z) (q : SearchQueryDto.t) (db : Db) :
  page_total (MatchingRepository.getMatchingOfUser id q
                (snd (MatchingRepository.updateStatus now db)))
  = page_total (MatchingRepository.getMatchingOfUser id q db)
  /\ map MatchingEntity.id
       (page_items (MatchingRepository.getMatchingOfUser id q
                      (snd (MatchingRepository.updateStatus now db))))
     = map MatchingEntity.id
         (page_items (MatchingRepository.getMatchingOfUser id q db)).
Proof.
  rewrite !getMatchingOfUser_run. unfold page_items, page_total. simpl.
  rewrite filter_map_swap.
  rewrite (filter_ext _ (MatchingRepository.where_owner id));
    [|intros m; unfold MatchingRepository.where_owner;
      now rewrite sweep_row_owner].
  split.
  - apply length_map.
  - rewrite skipn_map, firstn_map, map_map. apply map_ext.
    intros m. apply sweep_row_id.
Qed.

(** X8: adding a membership row does not look at the status of the
    matching: it gives the same outcome before and after a sweep, and the
    two operations lead to the same database in either order. *)
Theorem join_commutes_with_sweep
        (now : Z) (matchingId userId : jsnumber) (db : Db) :
  fst (MatchingRepository.addUserToMatching matchingId userId
         (snd (MatchingRepository.updateStatus now db)))
  = fst (MatchingRepository.addUserToMatching matchingId userId db)
  /\ snd (MatchingRepository.addUserToMatching matchingId userId
            (snd (MatchingRepository.updateStatus now db)))
     = snd (MatchingRepository.updateStatus now
              (snd (MatchingRepository.addUserToMatching matchingId userId db))).
Proof.
  unfold MatchingRepository.addUserToMatching, bind, Prisma.int_arg.
  destruct (as_int userId) as [uid|]; [|split; reflexivity].
  destruct (int32 uid); [|split; reflexivity].
  destruct (as_int matchingId) as [mid|]; [|split; reflexivity].
  destruct (int32 mid); [|split; reflexivity].
  simpl. rewrite existsb_id_swept.
  destruct (existsb (UserMatching.has_key mid uid) (userMatchings db));
    simpl; [split; reflexivity|].
  destruct (existsb (fun m => MatchingEntity.id m =? mid) (matchings db));
    simpl; split; reflexivity.
Qed.

(** ** Membership rows, beyond the claims *)

Lemma has_key_row (mid uid : Z) (r : UserMatching.t) :
  UserMatching.has_key mid uid r = true <-> r = UserMatching.mk uid mid.
Proof.
  destruct r as [u m]. unfold UserMatching.has_key. simpl.
  rewrite andb_true_iff, !Z.eqb_eq. split.
  - intros [-> ->]. reflexivity.
  - intros E. injection E as -> ->. split; reflexivity.
Qed.

Lemma no_key_without_row (mid uid : Z) (l : list UserMatching.t) :
  existsb (UserMatching.has_key mid uid) l = false
  <-> ~ In (UserMatching.mk uid mid) l.
Proof.
  split.
  - intros E Hin.
    assert (T : existsb (UserMatching.has_key mid uid) l = true).
    { apply existsb_exists. eexists. split; [exact Hin|]. now apply has_key_row. }
    congruence.
  - intros N. destruct (existsb (UserMatching.has_key mid uid) l) eqn:E;
      [|reflexivity].
    apply existsb_exists in E as [r [Hin Hk]]. apply has_key_row in Hk.
    subst r. contradiction.
Qed.

(** A successful [addUserToMatching], taken apart. *)
Lemma addUser_ok (a b : jsnumber) (db db' : Db) :
  MatchingRepository.addUserToMatching a b db = (Ok tt, db') ->
  exists mid uid,
    as_int a = Some mid /\ int32 mid = true
    /\ as_int b = Some uid /\ int32 uid = true
    /\ existsb (UserMatching.has_key mid uid) (userMatchings db) = false
    /\ existsb (fun m => MatchingEntity.id m =? mid) (matchings db) = true
    /\ db' = mkDb (matchings db)
                  (userMatchings db ++ [UserMatching.mk uid mid]) (nextId db).
Proof.
  unfold MatchingRepository.addUserToMatching, bind.
  destruct (Prisma.int_arg b db) as [[uid|e] db1] eqn:B; [|discriminate].
  apply int_arg_inv in B as [B [Ib ->]].
  destruct (Prisma.int_arg a db) as [[mid|e] db1] eqn:A; [|discriminate].
  apply int_arg_inv in A as [A [Ia ->]].
  destruct (existsb (UserMatching.has_key mid uid) (userMatchings db)) eqn:K;
    [discriminate|].
  destruct (existsb (fun m => MatchingEntity.id m =? mid) (matchings db)) eqn:I;
    [|discriminate].
  intros E. injection E as <-. exists mid, uid.
  split; [exact A|]. split; [exact Ia|]. split; [exact B|]. split; [exact Ib|].
  split; [exact K|]. split; [exact I | reflexivity].
Qed.

Lemma has_key_own (mid uid : Z) :
  UserMatching.has_key mid uid (UserMatching.mk uid mid) = true.
Proof. now apply has_key_row. Qed.

(** X9: leaving undoes joining: when [addUserToMatching] succeeds,
    [removeUserFromMatching] with the same arguments succeeds and gives back
    the database as it was before. *)
Theorem join_then_leave_restores (a b : jsnumber) (db db' : Db)
        (H : MatchingRepository.addUserToMatching a b db = (Ok tt, db')) :
  MatchingRepository.removeUserFromMatching a b db' = (Ok tt, db).
Proof.
  apply addUser_ok in H as [mid [uid [A [Ia [B [Ib [K [_ ->]]]]]]]].
  unfold MatchingRepository.removeUserFromMatching, bind.
  rewrite (int_arg_ok _ _ _ A Ia), (int_arg_ok _ _ _ B Ib).
  simpl. rewrite existsb_app. simpl. rewrite has_key_own, orb_true_r.
  rewrite filter_app, (filter_without_match _ _ K). simpl.
  rewrite has_key_own. simpl. rewrite app_nil_r. now destruct db.
Qed.

Lemma join_then_leave_restores_witness :
  MatchingRepository.removeUserFromMatching (JInt 2) (JInt 9)
    (mkDb [open_row; closed_row]
          [UserMatching.mk 8 1; UserMatching.mk 7 1; UserMatching.mk 9 2] 3)
  = (Ok tt, mixed_db).
Proof.
  exact (join_then_leave_restores (JInt 2) (JInt 9) mixed_db _ eq_refl).
Defined.

(** X10: a pair joins once: after a successful [addUserToMatching], the
    same call fails on the compound key with Prisma's unique-constraint
    error, not with an HTTP exception, and writes nothing. *)
Theorem join_twice_hits_unique_key (a b : jsnumber) (db db' : Db)
        (H : MatchingRepository.addUserToMatching a b db = (Ok tt, db')) :
  MatchingRepository.addUserToMatching a b db'
  = (Throw (PrismaException UniqueConstraintFailed), db').
Proof.
  apply addUser_ok in H as [mid [uid [A [Ia [B [Ib [_ [_ ->]]]]]]]].
  unfold MatchingRepository.addUserToMatching, bind.
  rewrite (int_arg_ok _ _ _ B Ib), (int_arg_ok _ _ _ A Ia).
  simpl. rewrite existsb_app. simpl. now rewrite has_key_own, orb_true_r.
Qed.

Lemma join_twice_hits_unique_key_witness :
  MatchingRepository.addUserToMatching (JInt 2) (JInt 9)
    (mkDb [open_row; closed_row]
          [UserMatching.mk 8 1; UserMatching.mk 7 1; UserMatching.mk 9 2] 3)
  = (Throw (PrismaException UniqueConstraintFailed),
     mkDb [open_row; closed_row]
          [UserMatching.mk 8 1; UserMatching.mk 7 1; UserMatching.mk 9 2] 3).
Proof.
  exact (join_twice_hits_unique_key (JInt 2) (JInt 9) mixed_db _ eq_refl).
Defined.

(** X11: no write of the repository makes a pair of user and matching
    appear twice: if the membership rows are pairwise distinct before
    [create], [addUserToMatching], [removeUserFromMatching], [updateStatus]
    or [delete], they are after, whether the call succeeds or throws. *)
Theorem membership_pairs_stay_unique (db : Db)
        (H : NoDup (userMatchings db)) :
  (forall now owner dto,
      NoDup (userMatchings (snd (MatchingRepository.create now owner dto db))))
  /\ (forall a b,
         NoDup (userMatchings (snd (MatchingRepository.addUserToMatching a b db))))
  /\ (forall a b,
         NoDup (userMatchings
                  (snd (MatchingRepository.removeUserFromMatching a b db))))
  /\ (forall now,
         NoDup (userMatchings (snd (MatchingRepository.updateStatus now db))))
  /\ (forall a, NoDup (userMatchings (snd (MatchingRepository.delete a db)))).
Proof.
  split; [|split; [|split; [|split]]].
  - intros now owner dto.
    unfold MatchingRepository.create, bind, Prisma.int_field.
    destruct (CreateMatchingDto.duration dto) as [d|]; [|exact H].
    destruct (int32 d); exact H.
  - intros a b.
    unfold MatchingRepository.addUserToMatching, bind, Prisma.int_arg.
    destruct (as_int b) as [uid|]; [|exact H].
    destruct (int32 uid); [|exact H].
    destruct (as_int a) as [mid|]; [|exact H].
    destruct (int32 mid); [|exact H]. simpl.
    destruct (existsb (UserMatching.has_key mid uid) (userMatchings db)) eqn:K;
      simpl; [exact H|].
    destruct (existsb (fun m => MatchingEntity.id m =? mid) (matchings db));
      simpl; [|exact H].
    apply no_key_without_row in K.
    apply (Permutation_NoDup (l := UserMatching.mk uid mid :: userMatchings db)).
    + apply Permutation_cons_append.
    + now constructor.
  - intros a b.
    unfold MatchingRepository.removeUserFromMatching, bind, Prisma.int_arg.
    destruct (as_int a) as [mid|]; [|exact H].
    destruct (int32 mid); [|exact H].
    destruct (as_int b) as [uid|]; [|exact H].
    destruct (int32 uid); [|exact H]. simpl.
    destruct (existsb (UserMatching.has_key mid uid) (userMatchings db));
      simpl; [now apply NoDup_filter | exact H].
  - intros now. exact H.
  - intros a. unfold MatchingRepository.delete, bind, Prisma.int_arg.
    destruct (as_int a) as [z|]; [|exact H].
    destruct (int32 z); [|exact H]. simpl.
    destruct (existsb (fun m => MatchingEntity.id m =? z) (matchings db));
      simpl; [now apply NoDup_filter | exact H].
Qed.

Lemma membership_pairs_stay_unique_witness :
  NoDup (userMatchings
           (snd (MatchingRepository.addUserToMatching (JInt 2) (JInt 9)
                   mixed_db))).
Proof.
  apply (membership_pairs_stay_unique mixed_db).
  apply NoDup_cons.
  - simpl. intros [E | []]. discriminate E.
  - apply NoDup_cons; [simpl; intros [] | apply NoDup_nil].
Defined.

(** X12: a member who has joined is listed: after a successful
    [addUserToMatching], [findOne] returns the matching, and the membership
    rows it includes hold the new pair. *)
Theorem joined_member_is_included (mid uid : Z) (db db' : Db)
        (H : MatchingRepository.addUserToMatching (JInt mid) (JInt uid) db
             = (Ok tt, db')) :
  exists m,
    MatchingRepository.findOne (JInt mid) db' = (Ok (Some m), db')
    /\ MatchingEntity.id (MatchingWithMembers.matching m) = mid
    /\ In (MatchingWithMembers.matching m) (matchings db)
    /\ In (UserMatching.mk uid mid) (MatchingWithMembers.userMatchings m).
Proof.
  apply addUser_ok in H as [mid' [uid' [Ea [Im [Eb [_ [_ [I ->]]]]]]]].
  simpl in Ea, Eb. injection Ea as <-. injection Eb as <-.
  unfold MatchingRepository.findOne, bind.
  rewrite (int_arg_ok (JInt mid) mid _ eq_refl Im). simpl.
  destruct (find (fun m => MatchingEntity.id m =? mid) (matchings db))
    as [row|] eqn:F.
  - eexists. split; [reflexivity|]. simpl.
    apply find_some in F as [Hin Hid]. apply Z.eqb_eq in Hid.
    split; [exact Hid|]. split; [exact Hin|].
    unfold MatchingRepository.members_of. simpl.
    apply filter_In. split; [|simpl; apply Z.eqb_refl].
    apply in_or_app. right. now left.
  - apply existsb_exists in I as [row [Hin Hid]].
    apply (find_none _ _ F) in Hin. congruence.
Qed.

Lemma joined_member_is_included_witness :
  exists m,
    MatchingRepository.findOne (JInt 2)
      (snd (MatchingRepository.addUserToMatching (JInt 2) (JInt 9) mixed_db))
    = (Ok (Some m),
       snd (MatchingRepository.addUserToMatching (JInt 2) (JInt 9) mixed_db))
    /\ In (UserMatching.mk 9 2) (MatchingWithMembers.userMatchings m).
Proof.
  destruct (joined_member_is_included 2 9 mixed_db _ eq_refl)
    as [m [F [_ [_ Hin]]]].
  exists m. split; [exact F | exact Hin].
Defined.

(** ** The routes, beyond the claims *)

Lemma findOne_reads_only (n : jsnumber) (db : Db) :
  snd (MatchingService.findOne n db) = db.
Proof.
  unfold MatchingService.findOne, MatchingRepository.findOne, bind,
    Prisma.int_arg.
  destruct (as_int n) as [z|]; [|reflexivity].
  destruct (int32 z); reflexivity.
Qed.

(** Whatever its arguments, [removeUser] writes no matching, adds no
    membership row and leaves in place the rows of every matching other
    than the one its first number names. *)
Lemma removeUser_reach (a b : jsnumber) (db : Db) :
  matchings (snd (MatchingService.removeUser a b db)) = matchings db
  /\ nextId (snd (MatchingService.removeUser a b db)) = nextId db
  /\ (forall r, In r (userMatchings (snd (MatchingService.removeUser a b db))) ->
                In r (userMatchings db))
  /\ (forall r z, In r (userMatchings db) ->
                  as_int a = Some z ->
                  z <> UserMatching.matchingId r ->
                  In r (userMatchings (snd (MatchingService.removeUser a b db)))).
Proof.
  destruct (removeUser_effect a b db) as [E | [mid [uid [A [B E]]]]];
    rewrite E.
  - split; [reflexivity|]. split; [reflexivity|]. split; intros r; auto.
  - simpl. split; [reflexivity|]. split; [reflexivity|]. split.
    + intros r Hr. now apply filter_In in Hr.
    + intros r z Hr Hz Hne. rewrite A in Hz. injection Hz as <-.
      apply filter_In. split; [exact Hr|].
      unfold UserMatching.has_key.
      destruct (Z.eqb_spec (UserMatching.matchingId r) mid) as [Eq|Eq];
        [|reflexivity].
      exfalso. apply Hne. now rewrite Eq.
Qed.

Lemma find_present {A} (f : A -> bool) (l : list A) (x : A) :
  In x l -> f x = true -> exists y, find f l = Some y.
Proof.
  intros Hin Hf. destruct (find f l) as [y|] eqn:F; [now exists y|].
  apply (find_none _ _ F) in Hin. congruence.
Qed.

Section MoreRoutes.

Variable ToNumber : string -> jsnumber.

(** X13: when the owner of an existing matching names a user by a number
    that is neither [NaN] nor [0], the request succeeds whatever becomes of
    the removal, and no matching is written; if the user whose id the
    database receives for that number holds no membership row of the
    matching, the database is as before. *)
Theorem owner_eviction_always_succeeds
        (caller : Z) (id : string) (userId : option string) (db : Db)
        (m : MatchingWithMembers.t)
        (Hm : MatchingService.findOne (ToNumber id) db = (Ok (Some m), db))
        (Ho : caller = MatchingEntity.ownerId (MatchingWithMembers.matching m))
        (Hnan : MatchingController.plus_param ToNumber userId <> JNaN)
        (Hzero : MatchingController.plus_param ToNumber userId <> JInt 0) :
  exists db',
    MatchingController.leaveMatching ToNumber caller id userId db = (Ok tt, db')
    /\ matchings db' = matchings db
    /\ (forall uid,
          as_int (MatchingController.plus_param ToNumber userId) = Some uid ->
          ~ In (UserMatching.mk uid
                  (MatchingEntity.id (MatchingWithMembers.matching m)))
               (userMatchings db) ->
          db' = db).
Proof.
  destruct (findOne_found _ _ _ _ Hm) as [Hn _].
  set (mid := MatchingEntity.id (MatchingWithMembers.matching m)) in *.
  set (u := MatchingController.plus_param ToNumber userId) in *.
  exists (snd (MatchingService.removeUser (ToNumber id) u db)).
  split; [|split].
  - unfold MatchingController.leaveMatching, bind. rewrite Hm.
    rewrite <- Ho, Z.eqb_refl. fold u.
    assert (T : truthy u = true).
    { destruct u as [|z|k|]; simpl;
        [contradiction| |reflexivity|reflexivity].
      destruct (Z.eqb_spec z 0); [subst z; contradiction | reflexivity]. }
    rewrite T. reflexivity.
  - apply removeUser_reach.
  - intros uid Hu Hnot.
    destruct (removeUser_effect (ToNumber id) u db)
      as [E | [mid' [uid' [A [B E]]]]]; [exact E|].
    rewrite E. rewrite Hn in A. injection A as <-.
    rewrite Hu in B. injection B as <-.
    apply no_key_without_row in Hnot.
    rewrite (filter_without_match _ _ Hnot). now destruct db.
Qed.

(** X14: whoever calls it and with whatever parameters, the leave route
    writes no matching, adds no membership row, and leaves in place the
    membership rows of every matching other than the one whose id the
    database receives for the path parameter. *)
Theorem leave_touches_only_that_matching
        (caller : Z) (id : string) (userId : option string) (db : Db) :
  matchings (snd (MatchingController.leaveMatching ToNumber caller id userId db))
  = matchings db
  /\ nextId (snd (MatchingController.leaveMatching ToNumber caller id userId db))
     = nextId db
  /\ (forall r,
        In r (userMatchings
                (snd (MatchingController.leaveMatching ToNumber caller id
                        userId db))) ->
        In r (userMatchings db))
  /\ (forall r z,
        In r (userMatchings db) ->
        as_int (ToNumber id) = Some z ->
        z <> UserMatching.matchingId r ->
        In r (userMatchings
                (snd (MatchingController.leaveMatching ToNumber caller id
                        userId db)))).
Proof.
  assert (Same : forall db',
             db' = db ->
             matchings db' = matchings db /\ nextId db' = nextId db
             /\ (forall r, In r (userMatchings db') -> In r (userMatchings db))
             /\ (forall r z, In r (userMatchings db) ->
                             as_int (ToNumber id) = Some z ->
                             z <> UserMatching.matchingId r ->
                             In r (userMatchings db'))).
  { intros db' ->. split; [reflexivity|]. split; [reflexivity|].
    split; intros r; auto. }
  unfold MatchingController.leaveMatching, bind.
  pose proof (findOne_reads_only (ToNumber id) db) as R.
  destruct (MatchingService.findOne (ToNumber id) db) as [[[m|]|e] db1];
    simpl in R; subst db1.
  - destruct (caller =? MatchingEntity.ownerId (MatchingWithMembers.matching m)).
    + destruct (truthy (MatchingController.plus_param ToNumber userId)); simpl.
      * unfold not_awaited. simpl. apply removeUser_reach.
      * now apply Same.
    + unfold not_awaited. simpl. apply removeUser_reach.
  - now apply Same.
  - now apply Same.
Qed.

(** X15: for an id that fits the 32-bit column and that no matching has,
    the three routes that look the matching up first answer with
    NotFoundException and write nothing: the lookup with the message that
    quotes the id, leave and delete without a message. *)
Theorem unknown_matching_not_found
        (caller : Z) (id : string) (userId : option string) (db : Db) (z : Z)
        (Hz : as_int (ToNumber id) = Some z)
        (Hi : int32 z = true)
        (Hn : forall m, In m (matchings db) -> MatchingEntity.id m <> z) :
  MatchingController.findOne ToNumber id db
  = (Throw (NotFoundException
              (Some ("matching with id=" ++ id ++ " not found")%string)), db)
  /\ MatchingController.leaveMatching ToNumber caller id userId db
     = (Throw (NotFoundException None), db)
  /\ MatchingController.remove ToNumber caller id db
     = (Throw (NotFoundException None), db).
Proof.
  assert (F : MatchingService.findOne (ToNumber id) db = (Ok None, db)).
  { unfold MatchingService.findOne, MatchingRepository.findOne, bind.
    rewrite (int_arg_ok _ _ _ Hz Hi). rewrite find_absent; [reflexivity|].
    intros m Hin. apply Z.eqb_neq. now apply Hn. }
  unfold MatchingController.findOne, MatchingController.leaveMatching,
    MatchingController.remove, bind.
  rewrite F. split; [reflexivity|]. split; reflexivity.
Qed.

(** X16: when the owner deletes an existing matching, the request
    succeeds; the matchings left are exactly those with another id; the
    membership rows of other matchings stay; and a lookup of the deleted id
    then answers NotFoundException. *)
Theorem owner_remove_deletes
        (caller : Z) (id : string) (db : Db) (m : MatchingWithMembers.t)
        (Hm : MatchingService.findOne (ToNumber id) db = (Ok (Some m), db))
        (Ho : MatchingEntity.ownerId (MatchingWithMembers.matching m) = caller) :
  exists db',
    MatchingController.remove ToNumber caller id db = (Ok tt, db')
    /\ (forall m',
          In m' (matchings db')
          <-> In m' (matchings db)
              /\ MatchingEntity.id m'
                 <> MatchingEntity.id (MatchingWithMembers.matching m))
    /\ (forall r,
          In r (userMatchings db) ->
          UserMatching.matchingId r
          <> MatchingEntity.id (MatchingWithMembers.matching m) ->
          In r (userMatchings db'))
    /\ MatchingController.findOne ToNumber id db'
       = (Throw (NotFoundException
                   (Some ("matching with id=" ++ id ++ " not found")%string)),
          db').
Proof.
  destruct (findOne_found _ _ _ _ Hm) as [Hn [Hfit [_ Hin]]].
  set (mid := MatchingEntity.id (MatchingWithMembers.matching m)) in *.
  assert (E : existsb (fun m0 => MatchingEntity.id m0 =? mid) (matchings db)
              = true).
  { apply existsb_exists. exists (MatchingWithMembers.matching m).
    split; [exact Hin | apply Z.eqb_refl]. }
  eexists. split; [|split; [|split]].
  - unfold MatchingController.remove, bind. rewrite Hm, Ho, Z.eqb_refl. simpl.
    unfold MatchingService.remove, MatchingRepository.delete, bind.
    rewrite (int_arg_ok _ _ _ Hn Hfit). rewrite E. reflexivity.
  - intros m'. simpl. rewrite filter_In, negb_true_iff, Z.eqb_neq. tauto.
  - intros r Hr Hne. simpl. apply filter_In. split; [exact Hr|].
    now apply negb_true_iff, Z.eqb_neq.
  - unfold MatchingController.findOne, MatchingService.findOne,
      MatchingRepository.findOne, bind.
    rewrite (int_arg_ok _ _ _ Hn Hfit). simpl.
    rewrite find_absent; [reflexivity|].
    intros x Hx. apply filter_In in Hx as [_ Hx].
    now apply negb_true_iff in Hx.
Qed.

End MoreRoutes.

Lemma owner_eviction_always_succeeds_witness :
  exists db',
    MatchingController.leaveMatching decimal_to_number 7 "1"
      (Some "12"%string) mixed_db
    = (Ok tt, db')
    /\ db' = mixed_db.
Proof.
  destruct (owner_eviction_always_succeeds decimal_to_number 7 "1"
              (Some "12"%string) mixed_db
              (MatchingWithMembers.mk open_row
                 [UserMatching.mk 8 1; UserMatching.mk 7 1])
              eq_refl eq_refl)
    as [db' [E [_ Hsame]]].
  - discriminate.
  - discriminate.
  - exists db'. split; [exact E|].
    apply (Hsame 12 eq_refl). simpl.
    intros [H | [H | []]]; discriminate H.
Defined.

Lemma unknown_matching_not_found_witness :
  MatchingController.remove decimal_to_number 7 "9" mixed_db
  = (Throw (NotFoundException None), mixed_db).
Proof.
  apply (unknown_matching_not_found decimal_to_number 7 "9" None mixed_db 9
           eq_refl eq_refl).
  intros m [<- | [<- | []]]; simpl; lia.
Defined.

Lemma owner_remove_deletes_witness :
  exists db',
    MatchingController.remove decimal_to_number 7 "2" mixed_db = (Ok tt, db')
    /\ In open_row (matchings db').
Proof.
  destruct (owner_remove_deletes decimal_to_number 7 "2" mixed_db
              (MatchingWithMembers.mk closed_row []) eq_refl eq_refl)
    as [db' [E [Hrows _]]].
  exists db'. split; [exact E|].
  apply Hrows. split; [simpl; now left | simpl; lia].
Defined.

(** ** Creation, beyond the claims *)

(** The five ways [create] can end, each with the condition on the input
    that leads to it. *)
Lemma create_cases (now uid : Z) (dto : CreateMatchingDto.t) (db : Db) :
  (MatchingController.create now uid dto db
   = (Throw (BadRequestException "Missing duration or matching date"), db)
   /\ ~ has_required_field dto)
  \/ (MatchingController.create now uid dto db
      = (Throw (BadRequestException "Invalid duration"), db)
      /\ has_required_field dto /\ ~ duration_not_negative dto)
  \/ (MatchingController.create now uid dto db
      = (Throw (BadRequestException "Invalid matching date"), db)
      /\ has_required_field dto /\ duration_not_negative dto
      /\ exists t, CreateMatchingDto.matchingDate dto = Some t /\ t < now)
  \/ (MatchingController.create now uid dto db
      = (Throw (PrismaException ValueOutOfRange), db)
      /\ passes_checks now dto /\ ~ duration_fits dto)
  \/ (accepted now uid dto db /\ passes_checks now dto /\ duration_fits dto).
Proof.
  destruct dto as [ty du md]. unfold passes_checks. run_create.
  destruct ty, du as [d|], md as [t|]; simpl; case_checks;
    first
      [ exfalso; lia
      | left; split; [reflexivity | lacks_field]
      | right; left; split; [reflexivity | split; [has_field | negative]]
      | right; right; left; split; [reflexivity|];
        split; [has_field|]; split; [not_negative|];
        eexists; split; [reflexivity | lia]
      | right; right; right; left; split; [reflexivity|];
        split;
        [ split; [has_field|]; split; [not_negative|];
          let T := fresh "T" in
          intros ? T; first [discriminate T | injection T as <-; lia]
        | let F := fresh "F" in
          intros F; specialize (F _ eq_refl); congruence ]
      | right; right; right; right; split; [reflexivity|];
        split;
        [ split; [has_field|]; split; [not_negative|];
          let T := fresh "T" in
          intros ? T; first [discriminate T | injection T as <-; lia]
        | let F := fresh "F" in
          intros ? F; first [discriminate F | injection F as <-; assumption] ] ].
Qed.

(** X17: [create] writes exactly when the input passes the three checks of
    the controller and its duration, if any, fits the 32-bit column.  The
    checks are: the field the type requires is there (a duration other than
    zero for QUICK, a matching date for YOTEI), the duration is not
    negative, and the matching date is not before the current time.  An
    input that fails a check is answered with a 400, one that passes them
    with a duration too large with Prisma's out-of-range error; in both
    cases the database is as before.  The answer is "Missing duration or
    matching date" exactly when the required field is not there. *)
Theorem create_outcome (now uid : Z) (dto : CreateMatchingDto.t) (db : Db) :
  (accepted now uid dto db <-> passes_checks now dto /\ duration_fits dto)
  /\ (~ passes_checks now dto ->
      rejected (MatchingController.create now uid dto db)
      /\ snd (MatchingController.create now uid dto db) = db)
  /\ (passes_checks now dto -> ~ duration_fits dto ->
      MatchingController.create now uid dto db
      = (Throw (PrismaException ValueOutOfRange), db))
  /\ (MatchingController.create now uid dto db
      = (Throw (BadRequestException "Missing duration or matching date"), db)
      <-> ~ has_required_field dto).
Proof.
  unfold accepted.
  destruct (create_cases now uid dto db)
    as [[E N] | [[E [R N]] | [[E [R [D [t [Et Hlt]]]]] | [[E [P F]] | [A [P F]]]]]];
    unfold accepted in *.
  - split; [|split; [|split]].
    + split; [intros A; rewrite E in A; discriminate A|].
      intros [[R _] _]. contradiction.
    + intros _. rewrite E. split; [eexists; reflexivity | reflexivity].
    + intros [R _] _. contradiction.
    + split; [intros _; exact N | intros _; exact E].
  - split; [|split; [|split]].
    + split; [intros A; rewrite E in A; discriminate A|].
      intros [[_ [D _]] _]. contradiction.
    + intros _. rewrite E. split; [eexists; reflexivity | reflexivity].
    + intros [_ [D _]] _. contradiction.
    + split; [intros M; rewrite E in M; discriminate M | contradiction].
  - split; [|split; [|split]].
    + split; [intros A; rewrite E in A; discriminate A|].
      intros [[_ [_ T]] _]. specialize (T t Et). lia.
    + intros _. rewrite E. split; [eexists; reflexivity | reflexivity].
    + intros [_ [_ T]] _. specialize (T t Et). lia.
    + split; [intros M; rewrite E in M; discriminate M | contradiction].
  - split; [|split; [|split]].
    + split; [intros A; rewrite E in A; discriminate A|].
      intros [_ F']. contradiction.
    + intros N. contradiction.
    + intros _ _. exact E.
    + destruct P as [R _].
      split; [intros M; rewrite E in M; discriminate M | contradiction].
  - split; [|split; [|split]].
    + split; [intros _; split; assumption | intros _; exact A].
    + intros N. contradiction.
    + intros _ N. contradiction.
    + destruct P as [R _].
      split; [intros M; rewrite A in M; discriminate M | contradiction].
Qed.

Lemma find_last {A} (f : A -> bool) (l : list A) (x : A) :
  (forall y, In y l -> f y = false) -> f x = true ->
  find f (l ++ [x]) = Some x.
Proof.
  intros Hl Hx. induction l as [|y l IH]; simpl.
  - now rewrite Hx.
  - rewrite (Hl y (or_introl eq_refl)). apply IH.
    intros z Hz. apply Hl. now right.
Qed.

Lemma filter_keeps_all {A} (f : A -> bool) (l : list A) :
  (forall y, In y l -> f y = true) -> filter f l = l.
Proof.
  induction l as [|y l IH]; simpl; [reflexivity|].
  intros H. rewrite (H y (or_introl eq_refl)). f_equal. apply IH.
  intros z Hz. apply H. now right.
Qed.

Lemma filter_drops_all {A} (f : A -> bool) (l : list A) :
  (forall y, In y l -> f y = false) -> filter f l = [].
Proof.
  induction l as [|y l IH]; simpl; [reflexivity|].
  intros H. rewrite (H y (or_introl eq_refl)). apply IH.
  intros z Hz. apply H. now right.
Qed.

Section CreatedMatching.

Variable ToNumber : string -> jsnumber.

Variables (now uid : Z) (dto : CreateMatchingDto.t) (db : Db) (id : string).
Hypothesis Hp : passes_checks now dto.
Hypothesis Hf : duration_fits dto.
Hypothesis Hs : sequence_ahead db.
Hypothesis Hseq : int32 (nextId db) = true.
Hypothesis Hid : ToNumber id = JInt (nextId db).

Lemma new_id_reaches_database (db0 : Db) :
  Prisma.int_arg (ToNumber id) db0 = (Ok (nextId db), db0).
Proof. apply int_arg_ok; [now rewrite Hid | exact Hseq]. Qed.

Lemma old_ids_differ (m : MatchingEntity.t) :
  In m (matchings db) -> (MatchingEntity.id m =? nextId db) = false.
Proof.
  intros Hin. destruct Hs as [Hm _]. rewrite Forall_forall in Hm.
  specialize (Hm m Hin). apply Z.eqb_neq. lia.
Qed.

Lemma old_rows_differ (r : UserMatching.t) :
  In r (userMatchings db) -> (UserMatching.matchingId r =? nextId db) = false.
Proof.
  intros Hin. destruct Hs as [_ Hr]. rewrite Forall_forall in Hr.
  specialize (Hr r Hin). apply Z.eqb_neq. lia.
Qed.

Lemma lookup_of_created :
  MatchingService.findOne (ToNumber id) (created_db now uid dto db)
  = (Ok (Some (MatchingWithMembers.mk (created_row now uid dto db) [])),
     created_db now uid dto db).
Proof.
  unfold MatchingService.findOne, MatchingRepository.findOne, bind.
  rewrite new_id_reaches_database. simpl.
  rewrite find_last;
    [|intros y Hy; now apply old_ids_differ | simpl; apply Z.eqb_refl].
  unfold MatchingRepository.members_of. simpl.
  rewrite filter_drops_all; [reflexivity|].
  intros r Hr. now apply old_rows_differ.
Qed.

(** X18: what is created can be looked up: on a database whose id sequence
    is ahead of the ids in use and has not run out of the 32-bit range, an
    input that passes the checks and whose duration fits is written
    as an OPEN matching of the caller, the lookup of its id returns that
    very row with no member (the creator is not made one), and the database
    after is again one whose sequence is ahead, with distinct ids if it had
    distinct ids. *)
Theorem created_matching_is_found :
  MatchingController.create now uid dto db
  = (Ok (created_row now uid dto db), created_db now uid dto db)
  /\ MatchingEntity.status (created_row now uid dto db) = OPEN
  /\ MatchingEntity.ownerId (created_row now uid dto db) = uid
  /\ MatchingController.findOne ToNumber id (created_db now uid dto db)
     = (Ok (MatchingWithMembers.mk (created_row now uid dto db) []),
        created_db now uid dto db)
  /\ sequence_ahead (created_db now uid dto db)
  /\ (ids_distinct db -> ids_distinct (created_db now uid dto db)).
Proof.
  split.
  { destruct Hp as [R [D T]]. now apply create_accepts. }
  split; [reflexivity|]. split; [reflexivity|]. split; [|split].
  - unfold MatchingController.findOne, bind.
    now rewrite lookup_of_created.
  - destruct Hs as [Hm Hr]. unfold sequence_ahead, created_db. simpl. split.
    + apply Forall_app. split.
      * eapply Forall_impl; [|exact Hm]. simpl. intros m H. lia.
      * constructor; [simpl; lia | constructor].
    + eapply Forall_impl; [|exact Hr]. simpl. intros r H. lia.
  - unfold ids_distinct, created_db. simpl. intros Hd.
    rewrite map_app. simpl.
    apply (Permutation_NoDup
             (l := nextId db :: map MatchingEntity.id (matchings db))).
    + apply Permutation_cons_append.
    + constructor; [|exact Hd].
      intros Hin. apply in_map_iff in Hin as [m [E Hin]].
      apply old_ids_differ in Hin. apply Z.eqb_neq in Hin. contradiction.
Qed.

(** X19: the creator can take back what they created: deleting the new
    matching as its creator succeeds and leaves the matchings and the
    membership rows exactly as they were before the creation; only the id
    sequence has moved on. *)
Theorem creator_delete_undoes_create :
  MatchingController.remove ToNumber uid id
    (snd (MatchingController.create now uid dto db))
  = (Ok tt, mkDb (matchings db) (userMatchings db) (nextId db + 1)).
Proof.
  assert (C : accepted now uid dto db).
  { destruct Hp as [R [D T]]. now apply create_accepts. }
  unfold accepted in C. rewrite C. simpl.
  unfold MatchingController.remove, bind.
  rewrite lookup_of_created. simpl. rewrite Z.eqb_refl. simpl.
  unfold MatchingService.remove, MatchingRepository.delete, bind.
  rewrite new_id_reaches_database. simpl. rewrite existsb_app. simpl.
  rewrite Z.eqb_refl, orb_true_r. simpl.
  rewrite filter_app. simpl. rewrite Z.eqb_refl. simpl. rewrite app_nil_r.
  rewrite !filter_keeps_all; [reflexivity | |].
  - intros r Hr. now rewrite old_rows_differ.
  - intros m Hm. now rewrite old_ids_differ.
Qed.

End CreatedMatching.

Lemma yotei_passes_checks : passes_checks 1000 (yotei_at 5000).
Proof.
  split; [exists 5000; reflexivity|]. split.
  - intros d E. discriminate E.
  - intros t E. injection E as <-. lia.
Defined.

Lemma mixed_db_sequence_ahead : sequence_ahead mixed_db.
Proof.
  split.
  - constructor; [simpl; lia|]. constructor; [simpl; lia | constructor].
  - constructor; [simpl; lia|]. constructor; [simpl; lia | constructor].
Defined.

Lemma yotei_duration_fits : duration_fits (yotei_at 5000).
Proof. intros d E. discriminate E. Defined.

Lemma created_matching_is_found_witness :
  MatchingController.findOne decimal_to_number "3"
    (created_db 1000 7 (yotei_at 5000) mixed_db)
  = (Ok (MatchingWithMembers.mk
           (MatchingEntity.mk 3 7 YOTEI (Some 5000) None OPEN 1000) []),
     created_db 1000 7 (yotei_at 5000) mixed_db).
Proof.
  apply (created_matching_is_found decimal_to_number 1000 7 (yotei_at 5000)
           mixed_db "3" yotei_passes_checks yotei_duration_fits
           mixed_db_sequence_ahead eq_refl eq_refl).
Defined.

Lemma creator_delete_undoes_create_witness :
  MatchingController.remove decimal_to_number 7 "3"
    (snd (MatchingController.create 1000 7 (yotei_at 5000) mixed_db))
  = (Ok tt, mkDb [open_row; closed_row]
                 [UserMatching.mk 8 1; UserMatching.mk 7 1] 4).
Proof.
  exact (creator_delete_undoes_create decimal_to_number 1000 7 (yotei_at 5000)
           mixed_db "3" yotei_passes_checks yotei_duration_fits
           mixed_db_sequence_ahead eq_refl eq_refl).
Defined.

(** ** The search route *)

Example search_without_a_name :
  MatchingController.searchMatchingMembersByName nat wiping_search 7
    (Some EmptyString) mixed_db
  = (Throw (BadRequestException "Missing member name"), mixed_db).
Proof. reflexivity. Qed.

Example search_with_a_name_runs_the_service :
  MatchingController.searchMatchingMembersByName nat wiping_search 7
    (Some "an"%string) mixed_db
  = (Ok 0%nat, mkDb [open_row; closed_row] [] 3).
Proof. reflexivity. Qed.

(** ** Numbers beyond the 32-bit columns *)

Example create_duration_out_of_range :
  MatchingController.create 1000 7
    (CreateMatchingDto.mk QUICK (Some 2147483648) None) empty_db
  = (Throw (PrismaException ValueOutOfRange), empty_db).
Proof. reflexivity. Qed.

Example create_largest_duration :
  fst (MatchingController.create 1000 7
         (CreateMatchingDto.mk QUICK (Some 2147483647) None) empty_db)
  = Ok (MatchingEntity.mk 1 7 QUICK None (Some 2147483647) OPEN 1000).
Proof. reflexivity. Qed.

Example findOne_id_out_of_range :
  MatchingController.findOne decimal_to_number "2147483648" mixed_db
  = (Throw (PrismaException ValueOutOfRange), mixed_db).
Proof. reflexivity. Qed.

Example owner_names_member_by_fraction :
  MatchingController.leaveMatching (fun _ => JFrac 8) 7 "8.5" (Some "8.5"%string)
    (mkDb [MatchingEntity.mk 8 7 YOTEI (Some 5000) None OPEN 100]
          [UserMatching.mk 8 8] 9)
  = (Ok tt, mkDb [MatchingEntity.mk 8 7 YOTEI (Some 5000) None OPEN 100] [] 9).
Proof. reflexivity. Qed.
